(** * Catalyst exchange layer: the Bittrex gateway and the bundle utilities

    A shallow embedding of [catalyst/exchange/bittrex/bittrex.py] and
    [catalyst/exchange/bundle_utils.py], and the properties of the
    specification that can be checked against them.

    Conventions of the embedding:
    - a value decoded from the remote's JSON is a [pyval]; numbers are kept
      abstract ([NumOps]) because the source never looks inside them beyond
      a subtraction, an absolute value and a truth test;
    - a Python exception is an [exn]; code that can raise returns a
      [result];
    - the gateway's methods run in the monad [M]: they thread the remote's
      state and emit the events (rate-limiter acquisitions, remote requests,
      log lines) in program order;
    - an instant is a [Timestamp], the number of nanoseconds since the epoch
      in UTC, which is how pandas stores it. *)

From Stdlib Require Import ZArith Ascii List Lia Sorting.Sorted.
From Stdlib Require String.
From stdpp Require Import base option list strings gmap sorting.

Set Warnings "-register-all".

Local Open Scope Z_scope.

(** ** Python values *)

Definition Timestamp : Type := Z.

(** The arithmetic the source performs on numbers decoded from JSON. *)
Class NumOps (num : Type) := {
  num_sub : num -> num -> num;          (* [a - b] *)
  num_abs : num -> num;                 (* [abs(a)] *)
  num_is_zero : num -> bool;            (* [not a] *)
  num_of_bool : bool -> num;            (* [True] is 1, [False] is 0 *)
  num_index : num -> option Z           (* [a.__index__()]: integers only *)
}.

(** Modelled from the spec: the [TradingPair] class (catalyst.assets._assets)
    is not part of the sources; the record has the attributes the sources
    read, with the availability window of the data model. *)
Record TradingPair := {
  sid : Z;
  symbol : string;
  exchange : string;
  exchange_symbol : string;
  start_date : Timestamp;
  end_daily : option Timestamp;
  end_minute : option Timestamp
}.

#[global] Instance TradingPair_eq_dec : EqDecision TradingPair.
Proof. solve_decision. Defined.

Section Model.
Context {num : Type} {ops : NumOps num}.

Inductive pyval : Type :=
| VNone
| VBool (b : bool)
| VNum (x : num)
| VStr (s : string)
| VList (l : list pyval)
| VDict (d : list (string * pyval)).

(** Python exceptions, with the keyword arguments the sources pass. *)
Inductive exn : Type :=
| KeyError (key : pyval)
| TypeError
| AttributeError
| IndexError
| ValueError (msg : string)
| UnboundLocalError (name : string)
| Exception (msg : string)
| ExternalError (tag : string)
| ExchangeRequestError (error : exn)
| ExchangeRequestError_value (error : pyval)
| ExchangeRequestError_format (template : string) (arg : pyval)
| InvalidHistoryFrequencyError (frequency : string)
| InvalidOrderStyle (exchange_name : string) (style_name : string)
| OrderNotFound (order_id : pyval) (exchange_name : string)
| OrderCancelError (order_id : pyval) (exchange_name : string)
                   (error : pyval)
| CreateOrderError (exchange_name : string) (error : pyval)
| NoDataAvailableOnExchange (last_asset : TradingPair)
                            (data_frequency : string).

Inductive result {A : Type} : Type :=
| Ok (a : A)
| Raise (e : exn).
Arguments result : clear implicits.

Definition result_bind {A B} (m : result A) (k : A -> result B) : result B :=
  match m with
  | Ok a => k a
  | Raise e => Raise e
  end.

#[global] Instance result_ret : MRet result := fun _ a => Ok a.
#[global] Instance result_mbind : MBind result := fun _ _ k m => result_bind m k.

(** ** Strings *)

Definition lower_ascii (c : ascii) : ascii :=
  let n := nat_of_ascii c in
  if ((65 <=? n)%nat && (n <=? 90)%nat)%bool then ascii_of_nat (n + 32) else c.

(** [str.lower()] on the ASCII range. *)
Fixpoint lower (s : string) : string :=
  match s with
  | EmptyString => EmptyString
  | String c s' => String (lower_ascii c) (lower s')
  end.

(** [p in s] for two strings. *)
Fixpoint is_substring (p s : string) : bool :=
  if String.prefix p s then true
  else match s with
       | EmptyString => false
       | String _ s' => is_substring p s'
       end.

Fixpoint chars (s : string) : list string :=
  match s with
  | EmptyString => []
  | String c s' => String c EmptyString :: chars s'
  end.

(** ** Operations on Python values *)

(** [bool(v)] *)
Definition truthy (v : pyval) : bool :=
  match v with
  | VNone => false
  | VBool b => b
  | VNum x => negb (num_is_zero x)
  | VStr s => negb (String.eqb s "")
  | VList l => match l with [] => false | _ => true end
  | VDict d => match d with [] => false | _ => true end
  end.

Definition is_none (v : pyval) : bool :=
  match v with VNone => true | _ => false end.

(** [v == s] for a string literal [s]. *)
Definition eq_str (v : pyval) (s : string) : bool :=
  match v with VStr s' => String.eqb s' s | _ => false end.

Fixpoint dict_get (d : list (string * pyval)) (k : string) : option pyval :=
  match d with
  | [] => None
  | (k', v) :: d' => if String.eqb k' k then Some v else dict_get d' k
  end.

(** An index into a sequence of length [n], negative ones counted from
    the end. *)
Definition seq_index {A} (l : list A) (i : Z) : option A :=
  let n := Z.of_nat (length l) in
  if (0 <=? i) && (i <? n) then l !! Z.to_nat i
  else if (- n <=? i) && (i <? 0) then l !! Z.to_nat (n + i)
  else None.

Definition as_index (k : pyval) : option Z :=
  match k with
  | VBool b => Some (Z.b2z b)
  | VNum x => num_index x
  | _ => None
  end.

(** [v[k]] *)
Definition getitem (v k : pyval) : result pyval :=
  match v with
  | VDict d =>
      match k with
      | VStr s => match dict_get d s with
                  | Some x => Ok x
                  | None => Raise (KeyError k)
                  end
      | VList _ | VDict _ => Raise TypeError
      | _ => Raise (KeyError k)
      end
  | VList l =>
      match as_index k with
      | Some i => match seq_index l i with
                  | Some x => Ok x
                  | None => Raise IndexError
                  end
      | None => Raise TypeError
      end
  | VStr s =>
      match as_index k with
      | Some i => match seq_index (chars s) i with
                  | Some c => Ok (VStr c)
                  | None => Raise IndexError
                  end
      | None => Raise TypeError
      end
  | _ => Raise TypeError
  end.

(** [s in v] for a string literal [s]. *)
Definition contains (s : string) (v : pyval) : result bool :=
  match v with
  | VDict d => Ok (match dict_get d s with Some _ => true | None => false end)
  | VStr s' => Ok (is_substring s s')
  | VList l => Ok (existsb (fun x => eq_str x s) l)
  | _ => Raise TypeError
  end.

(** The elements a [for] loop over [v] visits. *)
Definition iter (v : pyval) : result (list pyval) :=
  match v with
  | VList l => Ok l
  | VStr s => Ok (VStr <$> chars s)
  | VDict d => Ok ((fun kv => VStr (fst kv)) <$> d)
  | _ => Raise TypeError
  end.

(** [reversed(v)], as a list. *)
Definition reversed (v : pyval) : result (list pyval) :=
  match v with
  | VList l => Ok (reverse l)
  | VStr s => Ok (reverse (VStr <$> chars s))
  | VDict d => Ok (reverse ((fun kv => VStr (fst kv)) <$> d))
  | _ => Raise TypeError
  end.

Definition as_num (v : pyval) : option num :=
  match v with
  | VNum x => Some x
  | VBool b => Some (num_of_bool b)
  | _ => None
  end.

(** [a - b] *)
Definition sub (a b : pyval) : result pyval :=
  match as_num a, as_num b with
  | Some x, Some y => Ok (VNum (num_sub x y))
  | _, _ => Raise TypeError
  end.

(** [v.lower()] *)
Definition str_lower (v : pyval) : result string :=
  match v with
  | VStr s => Ok (lower s)
  | _ => Raise AttributeError
  end.

(** [l[:k]] *)
Definition slice_to {A} (l : list A) (k : Z) : list A :=
  if 0 <=? k then firstn (Z.to_nat k) l
  else firstn (Z.to_nat (Z.of_nat (length l) + k)) l.


(** ** The canonical model of the gateway's results *)

(** Modelled from the spec: [ORDER_STATUS] and the [Order] class
    (catalyst.finance.order) are not part of the sources. [Order] is the
    record of the constructor's keyword arguments; [filled] and
    [commission] are absent when the caller leaves them to the
    constructor's defaults, and a new order is OPEN until the gateway
    assigns its status. *)
Inductive ORDER_STATUS := OPEN | FILLED | CANCELLED.

Record Order := {
  o_dt : Timestamp;
  o_asset : TradingPair;
  o_amount : pyval;
  o_stop : pyval;
  o_limit : pyval;
  o_filled : option pyval;
  o_id : pyval;
  o_commission : option pyval;
  o_status : ORDER_STATUS
}.

Definition set_status (o : Order) (s : ORDER_STATUS) : Order :=
  {| o_dt := o_dt o; o_asset := o_asset o;
     o_amount := o_amount o; o_stop := o_stop o;
     o_limit := o_limit o; o_filled := o_filled o;
     o_id := o_id o; o_commission := o_commission o;
     o_status := s |}.

(** The dictionary [ohlc_from_candle] builds. *)
Record ohlc := {
  ohlc_open : pyval;
  ohlc_high : pyval;
  ohlc_low : pyval;
  ohlc_close : pyval;
  ohlc_volume : pyval;
  ohlc_price : pyval;
  last_traded : Timestamp
}.

Record Ticker := {
  ticker_timestamp : Timestamp;
  ticker_bid : pyval;
  ticker_ask : pyval;
  ticker_last_price : pyval
}.

Record book_entry := { rate : pyval; quantity : pyval }.

(** What [get_candles] stores per asset: one candle, or the bars. *)
Inductive candles := OneCandle (c : ohlc) | Bars (l : list ohlc).

(** [get_candles] takes one [TradingPair] or an iterable of them, and
    answers in kind. *)
Inductive assets_arg := OneAsset (a : TradingPair) | Assets (l : list TradingPair).
Inductive candles_result :=
| ForAsset (c : candles)
| ForAssets (m : list (TradingPair * candles)).

(** [cancel_order] takes an [Order] or an order id. *)
Inductive order_param := ByOrder (o : Order) | ById (id : pyval).

(** [d[k] = v] on a dictionary kept in insertion order. *)
Fixpoint dict_set {K V} `{EqDecision K} (d : list (K * V)) (k : K) (v : V)
  : list (K * V) :=
  match d with
  | [] => [(k, v)]
  | (k', v') :: d' =>
      if decide (k' = k) then (k, v) :: d' else (k', v') :: dict_set d' k v
  end.

Fixpoint dict_lookup {K V} `{EqDecision K} (d : list (K * V)) (k : K)
  : option V :=
  match d with
  | [] => None
  | (k', v) :: d' => if decide (k' = k) then Some v else dict_lookup d' k
  end.

(** ** The environment of the gateway *)

(** The requests the gateway sends: the methods of [Bittrex_api] it calls
    with their arguments, and the one URL it opens itself. *)
Inductive request :=
| Getbalances
| Buylimit (market : string) (quantity rate : pyval)
| Selllimit (market : string) (quantity rate : pyval)
| Getopenorders (market : string)
| Getorder (uuid : pyval)
| Cancel (uuid : pyval)
| Getticker (market : string)
| Getorderbook (market : string) (type : string) (depth : Z)
| Urlopen (url : string).

Inductive level := DEBUG | INFO | WARNING.

(** What a method does that an observer of the process sees, in program
    order. A log line is recorded by its template. *)
Inductive event :=
| AskRequest
| Remote (r : request)
| Log (lvl : level) (template : string).

(** The collaborators the sources call and do not define: the remote
    exchange ([world] is its state together with the clock), pandas'
    [to_datetime], the base class's asset table and [get_symbol], and the
    execution styles of catalyst.finance.execution. *)
Class Env := {
  world : Type;
  api : request -> world -> result pyval * world;
  clock : world -> Timestamp * world;
  to_datetime : pyval -> result Timestamp;
  self_assets : gmap string TradingPair;
  get_symbol : TradingPair -> result string;
  ExecutionStyle : Type;
  is_LimitOrder : ExecutionStyle -> bool;
  is_StopLimitOrder : ExecutionStyle -> bool;
  get_limit_price : ExecutionStyle -> bool -> pyval;
  get_stop_price : ExecutionStyle -> bool -> pyval;
  class_name : ExecutionStyle -> string
}.

Context {env : Env}.

(** ** The monad of the gateway's methods *)

Definition M (A : Type) : Type := world -> result A * world * list event.

Definition M_ret {A} (a : A) : M A := fun w => (Ok a, w, []).

Definition M_bind {A B} (m : M A) (k : A -> M B) : M B :=
  fun w =>
    match m w with
    | (Ok a, w', t) => let '(r, w'', t') := k a w' in (r, w'', t ++ t')
    | (Raise e, w', t) => (Raise e, w', t)
    end.

#[global] Instance M_mret : MRet M := @M_ret.
#[global] Instance M_mbind : MBind M := fun _ _ k m => M_bind m k.

Definition raise {A} (e : exn) : M A := fun w => (Raise e, w, []).

Definition lift {A} (r : result A) : M A := fun w => (r, w, []).

(** [try: m except Exception as e: handler e] *)
Definition try_except {A} (m : M A) (handler : exn -> M A) : M A :=
  fun w =>
    match m w with
    | (Ok a, w', t) => (Ok a, w', t)
    | (Raise e, w', t) => let '(r, w'', t') := handler e w' in (r, w'', t ++ t')
    end.

Definition log (lvl : level) (template : string) : M unit :=
  fun w => (Ok tt, w, [Log lvl template]).

(** Modelled from the spec: the Rate Limiter's acquire step
    ([Exchange.ask_request]) is not part of the sources. It returns once a
    slot is free; the model records that it ran. *)
Definition ask_request : M unit := fun w => (Ok tt, w, [AskRequest]).

Definition remote (r : request) : M pyval :=
  fun w => let '(res, w') := api r w in (res, w', [Remote r]).

(** [pd.Timestamp.utcnow()] *)
Definition utcnow : M Timestamp :=
  fun w => let '(now, w') := clock w in (Ok now, w', []).

(** A [for] loop that carries its variables from one round to the next. *)
Fixpoint for_each {F : Type -> Type} `{MBind F, MRet F} {A S}
    (l : list A) (s : S) (body : S -> A -> F S) : F S :=
  match l with
  | [] => mret s
  | x :: l' => s' ← body s x; for_each l' s' body
  end.

(** ** The Bittrex gateway (catalyst/exchange/bittrex/bittrex.py) *)

Definition URL2 : string := "https://bittrex.com/Api/v2.0".

(** [self.name] *)
Definition self_name : string := "bittrex".

(** [try: m except Exception as e: raise ExchangeRequestError(error=e)] *)
Definition or_request_error {A} (m : M A) : M A :=
  try_except m (λ e, raise (ExchangeRequestError e)).

(** [self.assets[key]] *)
Definition assets_getitem (key : pyval) : result TradingPair :=
  match key with
  | VStr s => match self_assets !! s with
              | Some a => Ok a
              | None => Raise (KeyError key)
              end
  | VList _ | VDict _ => Raise TypeError
  | _ => Raise (KeyError key)
  end.

Definition get_balances : M (gmap string pyval) :=
  balances ← or_request_error
    (log DEBUG "retrieving wallet balances";;
     ask_request;;
     remote Getbalances);
  try_except
    (lift (items ← iter balances;
           for_each items (∅ : gmap string pyval) (λ std_balances balance,
             c ← getitem balance (VStr "Currency");
             currency ← str_lower c;
             available ← getitem balance (VStr "Available");
             mret (<[currency := available]> std_balances))))
    (λ e, match e with
          | TypeError => raise (ExchangeRequestError_value balances)
          | _ => raise e
          end).

Definition create_order (asset : TradingPair) (amount : num) (is_buy : bool)
    (style : ExecutionStyle) : M (option Order) :=
  log INFO (if is_buy then "creating buy order" else "creating sell order");;
  exchange_symbol ← lift (get_symbol asset);
  if is_LimitOrder style || is_StopLimitOrder style then
    (if is_StopLimitOrder style
     then log WARNING "{} will ignore the stop price"
     else mret tt);;
    let price := get_limit_price style is_buy in
    order_status ← or_request_error
      (ask_request;;
       if is_buy
       then remote (Buylimit exchange_symbol (VNum amount) price)
       else remote (Selllimit exchange_symbol (VNum (num_abs amount)) price));
    has_uuid ← lift (contains "uuid" order_status);
    if has_uuid : bool then
      order_id ← lift (getitem order_status (VStr "uuid"));
      now ← utcnow;
      mret (Some {| o_dt := now;
                    o_asset := asset;
                    o_amount := VNum amount;
                    o_stop := get_stop_price style is_buy;
                    o_limit := get_limit_price style is_buy;
                    o_filled := None;
                    o_id := order_id;
                    o_commission := None;
                    o_status := OPEN |})
    else if eq_str order_status "INSUFFICIENT_FUNDS" then
      log WARNING "not enough funds to create order";;
      mret None
    else if eq_str order_status "DUST_TRADE_DISALLOWED_MIN_VALUE_50K_SAT" then
      log WARNING "Your order is too small, order at least 50K Satoshi";;
      mret None
    else raise (CreateOrderError self_name order_status)
  else raise (InvalidOrderStyle self_name (class_name style)).

Definition _create_order (order_status : pyval) : M (Order * pyval) :=
  log INFO "creating catalyst order from Bittrex {}";;
  lift (
    cancel_initiated ← getitem order_status (VStr "CancelInitiated");
    status ← (if truthy cancel_initiated then mret CANCELLED
              else closed ← getitem order_status (VStr "Closed");
                   if negb (is_none closed) then mret FILLED else mret OPEN);
    opened ← getitem order_status (VStr "Opened");
    date ← to_datetime opened;
    amount ← getitem order_status (VStr "Quantity");
    remaining ← getitem order_status (VStr "QuantityRemaining");
    filled ← sub amount remaining;
    market ← getitem order_status (VStr "Exchange");
    asset ← assets_getitem market;
    limit ← getitem order_status (VStr "Limit");
    uuid ← getitem order_status (VStr "OrderUuid");
    commission ← getitem order_status (VStr "CommissionPaid");
    let order := {| o_dt := date;
                    o_asset := asset;
                    o_amount := amount;
                    o_stop := VNone;
                    o_limit := limit;
                    o_filled := Some filled;
                    o_id := uuid;
                    o_commission := Some commission;
                    o_status := OPEN |} in
    let order := set_status order status in
    executed_price ← getitem order_status (VStr "PricePerUnit");
    mret (order, executed_price)).

Definition get_open_orders (asset : TradingPair) : M (list (Order * pyval)) :=
  symbol ← lift (get_symbol asset);
  open_orders ← or_request_error
    (ask_request;;
     remote (Getopenorders symbol));
  items ← lift (iter open_orders);
  for_each items [] (λ orders order_status,
    order ← _create_order order_status;
    mret (orders ++ [order])).

Definition get_order (order_id : pyval) : M (Order * pyval) :=
  log INFO "retrieving order {}";;
  order_status ← or_request_error
    (ask_request;;
     remote (Getorder order_id));
  if is_none order_status
  then raise (OrderNotFound order_id self_name)
  else _create_order order_status.

Definition cancel_order (order_param : order_param) : M unit :=
  let order_id := match order_param with
                  | ByOrder o => o_id o
                  | ById id => id
                  end in
  log INFO "cancelling order {}";;
  status ← or_request_error
    (ask_request;;
     remote (Cancel order_id));
  has_message ← lift (contains "message" status);
  if has_message : bool then
    message ← lift (getitem status (VStr "message"));
    raise (OrderCancelError order_id self_name message)
  else mret tt.

(** The local function [ohlc_from_candle] of [get_candles]. *)
Definition ohlc_from_candle (candle : pyval) : result ohlc :=
  o ← getitem candle (VStr "O");
  h ← getitem candle (VStr "H");
  l ← getitem candle (VStr "L");
  c ← getitem candle (VStr "C");
  v ← getitem candle (VStr "V");
  p ← getitem candle (VStr "C");
  t ← getitem candle (VStr "T");
  last ← to_datetime t;
  mret {| ohlc_open := o; ohlc_high := h; ohlc_low := l; ohlc_close := c;
          ohlc_volume := v; ohlc_price := p; last_traded := last |}.

(** The chain of comparisons at the head of [get_candles]. *)
Definition tick_interval (data_frequency : string) : result string :=
  if String.eqb data_frequency "minute" || String.eqb data_frequency "1m"
  then Ok "oneMin"
  else if String.eqb data_frequency "5m" then Ok "fiveMin"
  else if String.eqb data_frequency "30m" then Ok "thirtyMin"
  else if String.eqb data_frequency "1h" then Ok "hour"
  else if String.eqb data_frequency "daily" || String.eqb data_frequency "1D"
  then Ok "day"
  else Raise (InvalidHistoryFrequencyError data_frequency).

Definition ticks_url (symbol frequency : string) : string :=
  URL2 +:+ "/pub/market/GetTicks?marketName=" +:+ symbol
       +:+ "&tickInterval=" +:+ frequency +:+ "&_=1499127220008".

(** One round of the loop over [asset_list] in [get_candles]. *)
Definition candles_of_asset (frequency : string) (bar_count : option Z)
    (ohlc_map : list (TradingPair * candles)) (asset : TradingPair)
  : M (list (TradingPair * candles)) :=
  symbol ← lift (get_symbol asset);
  let url := ticks_url symbol frequency in
  data ← or_request_error (remote (Urlopen url));
  message ← lift (getitem data (VStr "message"));
  if truthy message
  then raise (ExchangeRequestError_format "Unable to fetch candles {}" message)
  else
    candles ← lift (getitem data (VStr "result"));
    ordered_candles ← lift (reversed candles);
    match bar_count with
    | None =>
        first ← lift (match ordered_candles with
                      | candle :: _ => Ok candle
                      | [] => Raise IndexError
                      end);
        bar ← lift (ohlc_from_candle first);
        mret (dict_set ohlc_map asset (OneCandle bar))
    | Some bar_count =>
        ohlc_bars ← lift (for_each (slice_to ordered_candles bar_count) []
                            (λ ohlc_bars candle,
                               bar ← ohlc_from_candle candle;
                               mret (ohlc_bars ++ [bar])));
        mret (dict_set ohlc_map asset (Bars ohlc_bars))
    end.

Definition get_candles (data_frequency : string) (assets : assets_arg)
    (bar_count : option Z) (start_date : option Timestamp)
  : M candles_result :=
  log INFO "retrieving candles";;
  frequency ← lift (tick_interval data_frequency);
  let asset_list := match assets with
                    | OneAsset a => [a]
                    | Assets l => l
                    end in
  ohlc_map ← for_each asset_list [] (candles_of_asset frequency bar_count);
  match assets with
  | OneAsset a =>
      match dict_lookup ohlc_map a with
      | Some c => mret (ForAsset c)
      | None => raise (KeyError VNone)  (* never: the loop has stored [a] *)
      end
  | Assets _ => mret (ForAssets ohlc_map)
  end.

Definition tickers (assets : list TradingPair)
  : M (list (TradingPair * Ticker)) :=
  log INFO "retrieving tickers";;
  ticks ← for_each assets [] (λ ticks asset,
    symbol ← lift (get_symbol asset);
    ticker ← or_request_error
      (ask_request;;
       remote (Getticker symbol));
    now ← utcnow;
    bid ← lift (getitem ticker (VStr "Bid"));
    ask ← lift (getitem ticker (VStr "Ask"));
    last ← lift (getitem ticker (VStr "Last"));
    mret (dict_set ticks asset
            {| ticker_timestamp := now; ticker_bid := bid;
               ticker_ask := ask; ticker_last_price := last |}));
  log DEBUG "got tickers {}";;
  mret ticks.

(** The chain of comparisons at the head of [get_orderbook]. *)
Definition book_type (order_type : string) : result string :=
  if String.eqb order_type "all" then Ok "both"
  else if String.eqb order_type "bid" then Ok "buy"
  else if String.eqb order_type "ask" then Ok "sell"
  else Raise (ValueError "invalid type").

(** The loop over the keys of the remote's answer in [get_orderbook]: it
    carries [order_type] and [result] from one round to the next. *)
Definition book_sides (data : pyval) (order_type : string)
  : result (gmap string (list book_entry)) :=
  keys ← iter data;
  st ← for_each keys (order_type, (∅ : gmap string (list book_entry)))
    (λ st exchange_type,
       let order_type :=
         if eq_str exchange_type "buy" then "bids"
         else if eq_str exchange_type "sell" then "asks"
         else fst st in
       let result := <[order_type := []]> (snd st) in
       side ← getitem data exchange_type;
       entries ← iter side;
       result ← for_each entries result (λ result entry,
         r ← getitem entry (VStr "Rate");
         q ← getitem entry (VStr "Quantity");
         mret (alter (λ l, l ++ [{| rate := r; quantity := q |}])
                     order_type result));
       mret (order_type, result));
  mret (snd st).

Definition get_orderbook (asset : TradingPair) (order_type : string)
    (limit : Z) : M (gmap string (list book_entry)) :=
  order_type ← lift (book_type order_type);
  let exchange_symbol := exchange_symbol asset in
  data ← remote (Getorderbook exchange_symbol order_type 100);
  lift (book_sides data order_type).

(** ** POSIX paths (the functions of os.path the sources call) *)

(** [s.split(sep)] for a one-character separator. *)
Fixpoint split_on (sep : ascii) (s : string) : list string :=
  match s with
  | EmptyString => [EmptyString]
  | String c s' =>
      if Ascii.eqb c sep then EmptyString :: split_on sep s'
      else match split_on sep s' with
           | [] => [String c EmptyString]
           | w :: ws => String c w :: ws
           end
  end.

(** [sep.join(l)] *)
Fixpoint join_with (sep : string) (l : list string) : string :=
  match l with
  | [] => ""
  | [x] => x
  | x :: l' => x +:+ sep +:+ join_with sep l'
  end.

Definition startswith (s p : string) : bool := String.prefix p s.

Fixpoint endswith_slash (s : string) : bool :=
  match s with
  | EmptyString => false
  | String c EmptyString => Ascii.eqb c "/"
  | String _ s' => endswith_slash s'
  end.

(** [os.path.join(a, b)] *)
Definition path_join (a b : string) : string :=
  if startswith b "/" then b
  else if String.eqb a "" || endswith_slash a then a +:+ b
  else a +:+ "/" +:+ b.

(** One round of the loop over the components in [os.path.normpath]. *)
Definition normpath_step (initial_slashes : nat) (new_comps : list string)
    (comp : string) : list string :=
  if String.eqb comp "" || String.eqb comp "." then new_comps
  else if negb (String.eqb comp "..")
          || (Nat.eqb initial_slashes 0 && bool_decide (new_comps = []))
          || (match last new_comps with
              | Some c => String.eqb c ".."
              | None => false
              end)
  then new_comps ++ [comp]
  else removelast new_comps.

(** [os.path.normpath(path)] *)
Definition normpath (path : string) : string :=
  if String.eqb path "" then "."
  else
    let initial_slashes :=
      if startswith path "/"
      then if startswith path "//" && negb (startswith path "///")
           then 2%nat else 1%nat
      else 0%nat in
    let comps := fold_left (normpath_step initial_slashes)
                           (split_on "/" path) [] in
    let path := join_with "/" comps in
    let path := join_with "" (repeat "/" initial_slashes) +:+ path in
    if String.eqb path "" then "." else path.

(** [os.path.abspath(path)] in the working directory [cwd]. *)
Definition abspath (cwd path : string) : string :=
  normpath (if startswith path "/" then path else path_join cwd path).

(** The scan of [os.path.commonprefix] over its least and greatest
    argument: the longest string both start with, character by character. *)
Fixpoint common_chars (s1 s2 : string) : string :=
  match s1, s2 with
  | String c r1, String d r2 =>
      if Ascii.eqb c d then String c (common_chars r1 r2) else EmptyString
  | _, _ => EmptyString
  end.

Definition str_min (a b : string) : string := if String.leb a b then a else b.
Definition str_max (a b : string) : string := if String.leb a b then b else a.

(** [os.path.commonprefix(m)] *)
Definition commonprefix (m : list string) : string :=
  match m with
  | [] => ""
  | x :: m' => common_chars (fold_left str_min m' x) (fold_left str_max m' x)
  end.

(** ** The bundle utilities (catalyst/exchange/bundle_utils.py) *)

(** A member of a tar archive, by its name. *)
Record TarInfo := { member_name : string }.

(** The part of the file system the archive fetcher reads and writes: the
    working directory, and the absolute paths of the directories and of the
    files that exist. *)
Record filesystem := {
  cwd : string;
  dirs : gset string;
  files : gset string
}.

(** [os.path.isdir(path)] *)
Definition isdir (fs : filesystem) (path : string) : bool :=
  bool_decide (abspath (cwd fs) path ∈ dirs fs).

(** [tar.extractall(path)] without an extraction filter: every member goes
    to [os.path.join(path, member.name)], wherever that leads. *)
Definition extractall (fs : filesystem) (tar : list TarInfo) (path : string)
  : filesystem :=
  {| cwd := cwd fs;
     dirs := {[ abspath (cwd fs) path ]} ∪ dirs fs;
     files := list_to_set ((λ member,
                abspath (cwd fs) (path_join path (member_name member))) <$> tar)
              ∪ files fs |}.

Definition is_within_directory (cwd directory target : string) : bool :=
  let abs_directory := abspath cwd directory in
  let abs_target := abspath cwd target in
  let prefix := commonprefix [abs_directory; abs_target] in
  String.eqb prefix abs_directory.

Definition safe_extract (fs : filesystem) (tar : list TarInfo) (path : string)
  : result filesystem :=
  for_each tar tt (λ _ member,
    let member_path := path_join path (member_name member) in
    if negb (is_within_directory (cwd fs) path member_path)
    then Raise (Exception "Attempted Path Traversal in Tar File")
    else mret tt);;
  mret (extractall fs tar path).

(** The collaborators of [get_bcolz_chunk] the sources do not define: the
    bundle folder of an exchange, and the download of a URL followed by
    [tarfile.open], which gives the members of the archive or raises. *)
Class BundleEnv := {
  get_exchange_bundles_folder : string -> string;
  download_without_progress : string -> result (list TarInfo)
}.

Definition bundle_name (exchange_name symbol data_frequency period : string)
  : string :=
  exchange_name +:+ "-" +:+ data_frequency +:+ "-" +:+ symbol
                +:+ "-" +:+ period.

Definition get_bcolz_chunk {bundles : BundleEnv} (fs : filesystem)
    (exchange_name symbol data_frequency period : string)
  : result (string * filesystem) :=
  let root := get_exchange_bundles_folder exchange_name in
  let name := bundle_name exchange_name symbol data_frequency period in
  let path := path_join root name in
  if negb (isdir fs path) then
    let url := "https://s3.amazonaws.com/enigmaco/catalyst-bundles/exchange-"
               +:+ exchange_name +:+ "/" +:+ name +:+ ".tar.gz" in
    tar ← download_without_progress url;
    fs' ← safe_extract fs tar path;
    mret (path, fs')
  else mret (path, fs).

(** One round of the loop over [assets] in [get_adj_dates]: it carries
    [earliest_trade] and [last_entry]. *)
Definition adj_dates_step (data_frequency : string)
    (st : option Timestamp * option Timestamp) (asset : TradingPair)
  : option Timestamp * option Timestamp :=
  let '(earliest_trade, last_entry) := st in
  let earliest_trade :=
    match earliest_trade with
    | None => Some (start_date asset)
    | Some e => if e >? start_date asset then Some (start_date asset)
                else Some e
    end in
  let end_asset := if String.eqb data_frequency "minute"
                   then end_minute asset else end_daily asset in
  let last_entry :=
    match end_asset with
    | Some ea =>
        match last_entry with
        | None => Some ea
        | Some le => if ea >? le then Some ea else Some le
        end
    | None => last_entry
    end in
  (earliest_trade, last_entry).

(** [a > b] and [a >= b] where [a] may be [None]: Python 3 refuses to
    order [None]. *)
Definition gt_opt (a : option Timestamp) (b : Timestamp) : result bool :=
  match a with
  | Some x => Ok (x >? b)
  | None => Raise TypeError
  end.

Definition ge_opt (a : option Timestamp) (b : Timestamp) : result bool :=
  match a with
  | Some x => Ok (x >=? b)
  | None => Raise TypeError
  end.

(** The [raise] of [get_adj_dates] reads the loop variable [asset], which
    is the last asset, and is unbound when [assets] is empty. *)
Definition no_data_available {A} (assets : list TradingPair)
    (data_frequency : string) : result A :=
  match last assets with
  | Some asset => Raise (NoDataAvailableOnExchange asset data_frequency)
  | None => Raise (UnboundLocalError "asset")
  end.

Definition get_adj_dates (start end_ : option Timestamp)
    (assets : list TradingPair) (data_frequency : string)
  : result (Timestamp * Timestamp) :=
  let '(earliest_trade, last_entry) :=
    fold_left (adj_dates_step data_frequency) assets (None, None) in
  start ← match start with
          | None => Ok earliest_trade
          | Some s =>
              later ← gt_opt earliest_trade s;
              if later : bool then Ok earliest_trade else Ok (Some s)
          end;
  let end_ :=
    match end_ with
    | None => last_entry
    | Some e =>
        match last_entry with
        | Some le => if e >? le then last_entry else Some e
        | None => Some e
        end
    end in
  match end_ with
  | None => no_data_available assets data_frequency
  | Some e =>
      empty ← ge_opt start e;
      if empty : bool then no_data_available assets data_frequency
      else match start with
           | Some s => Ok (s, e)
           | None => Raise TypeError  (* never: [ge_opt] has raised *)
           end
  end.

(** *** The calendar (the functions of calendar and datetime the sources
    call) *)

Definition isleap (year : Z) : bool :=
  (year mod 4 =? 0) && (negb (year mod 100 =? 0) || (year mod 400 =? 0)).

(** [calendar.mdays] *)
Definition mdays : list Z := [0; 31; 28; 31; 30; 31; 30; 31; 31; 30; 31; 30; 31].

Definition days_before_year (year : Z) : Z :=
  let y := year - 1 in y * 365 + y / 4 - y / 100 + y / 400.

Definition days_in_month (year month : Z) : Z :=
  if (month =? 2) && isleap year then 29
  else nth (Z.to_nat month) mdays 0.

(** [datetime._DAYS_BEFORE_MONTH] *)
Definition DAYS_BEFORE_MONTH : list Z :=
  [0; 0; 31; 59; 90; 120; 151; 181; 212; 243; 273; 304; 334].

Definition days_before_month (year month : Z) : Z :=
  nth (Z.to_nat month) DAYS_BEFORE_MONTH 0
  + (if (month >? 2) && isleap year then 1 else 0).

(** [date(year, month, day).toordinal()] *)
Definition ymd2ord (year month day : Z) : Z :=
  days_before_year year + days_before_month year month + day.

(** [calendar.weekday] *)
Definition weekday (year month day : Z) : Z :=
  let year := if (1 <=? year) && (year <=? 9999) then year
              else 2000 + year mod 400 in
  (ymd2ord year month day + 6) mod 7.

(** [calendar.monthrange] *)
Definition monthrange (year month : Z) : result (Z * Z) :=
  if negb ((1 <=? month) && (month <=? 12))
  then Raise (ValueError "bad month number; must be 1-12")
  else
    let day1 := weekday year month 1 in
    let ndays := nth (Z.to_nat month) mdays 0
                 + (if (month =? 2) && isleap year then 1 else 0) in
    Ok (day1, ndays).

Record datetime := {
  year : Z; month : Z; day : Z;
  hour : Z; minute : Z; second : Z; microsecond : Z
}.

(** [datetime(year, month, day, hour, minute, second, microsecond)] *)
Definition datetime_new (y mo d h mi s us : Z) : result datetime :=
  if negb ((1 <=? y) && (y <=? 9999))
  then Raise (ValueError "year is out of range")
  else if negb ((1 <=? mo) && (mo <=? 12))
  then Raise (ValueError "month must be in 1..12")
  else if negb ((1 <=? d) && (d <=? days_in_month y mo))
  then Raise (ValueError "day is out of range for month")
  else if negb ((0 <=? h) && (h <=? 23))
  then Raise (ValueError "hour must be in 0..23")
  else if negb ((0 <=? mi) && (mi <=? 59))
  then Raise (ValueError "minute must be in 0..59")
  else if negb ((0 <=? s) && (s <=? 59))
  then Raise (ValueError "second must be in 0..59")
  else if negb ((0 <=? us) && (us <=? 999999))
  then Raise (ValueError "microsecond must be in 0..999999")
  else Ok {| year := y; month := mo; day := d;
             hour := h; minute := mi; second := s; microsecond := us |}.

(** [pd.to_datetime(d, utc=True)] for a naive [datetime]: the same wall
    clock read in UTC, in nanoseconds since the epoch. The range pandas can
    hold is not modelled. *)
Definition to_datetime_utc (d : datetime) : Timestamp :=
  (((ymd2ord (year d) (month d) (day d) - 719163) * 86400
    + hour d * 3600 + minute d * 60 + second d) * 1000000
   + microsecond d) * 1000.

Definition get_month_start_end (dt : datetime)
  : result (Timestamp * Timestamp) :=
  month_range ← monthrange (year dt) (month dt);
  first ← datetime_new (year dt) (month dt) 1 0 0 0 0;
  let month_start := to_datetime_utc first in
  last ← datetime_new (year dt) (month dt) (snd month_range) 23 59 0 0;
  let month_end := to_datetime_utc last in
  mret (month_start, month_end).

End Model.

Arguments pyval : clear implicits.
Arguments exn : clear implicits.
Arguments result : clear implicits.
Arguments Order : clear implicits.
Arguments ohlc : clear implicits.
Arguments Ticker : clear implicits.
Arguments book_entry : clear implicits.
Arguments candles : clear implicits.
Arguments candles_result : clear implicits.
Arguments order_param : clear implicits.
Arguments request : clear implicits.
Arguments event : clear implicits.
Arguments Env : clear implicits.
Arguments BundleEnv : clear implicits.


(** ** The rest of the two files

    The functions the properties of the specification do not need:
    [sanitize_curency_symbol] of the gateway, and of the bundle utilities
    [get_delta], [get_start_dt], [get_year_start_end], [range_in_bundle]
    and [find_most_recent_time]. Left out are the functions that compute in
    floating point or belong to pandas ([get_date_from_ms],
    [get_seconds_from_date], [get_periods], [get_periods_range],
    [get_df_from_arrays]) and [generate_symbols_json], which reads and
    writes files. *)

Section MoreModel.
Context {num : Type} {ops : NumOps num}.
Local Abbreviation pyval := (pyval num).
Local Abbreviation result := (result num).

(** [exchange_symbol.lower()] *)
Definition sanitize_curency_symbol (exchange_symbol : pyval) : result string :=
  str_lower exchange_symbol.

(** A [timedelta] is a number of nanoseconds, as an instant is. *)
Definition get_delta (periods : Z) (data_frequency : string) : Z :=
  if String.eqb data_frequency "minute"
  then periods * 60000000000
  else periods * 86400000000000.

Definition get_start_dt (end_dt : Timestamp) (bar_count : Z)
    (data_frequency : string) : Timestamp :=
  let periods := bar_count in
  if periods >? 1
  then let delta := get_delta periods data_frequency in end_dt - delta
  else end_dt.

(** [date(year, 1, 1)] is midnight of that day once pandas reads it in
    UTC. *)
Definition get_year_start_end (dt : datetime)
  : result (Timestamp * Timestamp) :=
  first ← datetime_new (year dt) 1 1 0 0 0 0;
  let year_start := to_datetime_utc first in
  last ← datetime_new (year dt) 12 31 0 0 0 0;
  let year_end := to_datetime_utc last in
  mret (year_start, year_end).

(** The bundle reader of [range_in_bundle]: its method [get_value], which
    the sources do not define. *)
Definition Reader : Type := Z → Timestamp → string → result pyval.

(** [np_isnan] is numpy's [isnan], which raises on what is not a number. *)
Definition range_in_bundle (np_isnan : pyval → result bool)
    (asset : TradingPair) (start_dt end_dt : Timestamp)
    (reader : option Reader) : bool :=
  let has_data := true in
  match reader with
  | Some get_value =>
      match
        start_close ← get_value (sid asset) start_dt "close";
        start_nan ← np_isnan start_close;
        if start_nan : bool then mret false
        else
          end_close ← get_value (sid asset) end_dt "close";
          end_nan ← np_isnan end_close;
          if end_nan : bool then mret false else mret has_data
      with
      | Ok has_data => has_data
      | Raise _ => false
      end
  | None => false
  end.

(** [d.keys()[0]]: the module only loads under Python 3 (it has
    keyword-only parameters), where the keys of a dictionary are a view
    that cannot be subscripted. *)
Definition keys_getitem {A} (keys : list A) (i : Z) : result A :=
  Raise TypeError.

(** [most_recent_bundle] holds at most one folder with its date: it is
    emptied before every assignment. [listdir] is [os.listdir], absent
    where it raises [OSError]; [data_path] and [from_bundle_ingest_dirname]
    are the collaborators of catalyst the sources do not define. *)
Definition find_most_recent_time (listdir : string → option (list string))
    (data_path : list string → string)
    (from_bundle_ingest_dirname : string → result Timestamp)
    (bundle_name : string) : result (option string) :=
  match listdir (data_path [bundle_name]) with
  | None => Ok None
  | Some bundle_folders =>
      most_recent_bundle ←
        for_each bundle_folders (None : option (string * Timestamp))
          (λ most_recent_bundle folder,
             date ← from_bundle_ingest_dirname folder;
             newer ← match most_recent_bundle with
                     | None => Ok true
                     | Some (held, held_date) =>
                         key ← keys_getitem [held] 0;
                         mret (date >? held_date)
                     end;
             if newer : bool then mret (Some (folder, date))
             else mret most_recent_bundle);
      match most_recent_bundle with
      | Some (held, _) => first ← keys_getitem [held] 0; mret (Some first)
      | None => Ok None
      end
  end.

End MoreModel.

(** ** A concrete environment, for the examples

    Numbers are integers (amounts in the exchange's smallest unit), the
    remote is given by the answer it makes to each request, and the clock
    stands still. *)

Definition Z_NumOps : NumOps Z := {|
  num_sub := Z.sub;
  num_abs := Z.abs;
  num_is_zero := Z.eqb 0;
  num_of_bool := Z.b2z;
  num_index := Some
|}.

Definition digit (c : ascii) : option Z :=
  let n := Z.of_nat (nat_of_ascii c) in
  if (48 <=? n) && (n <=? 57) then Some (n - 48) else None.

Fixpoint number (acc : Z) (s : string) : option Z :=
  match s with
  | EmptyString => Some acc
  | String c s' => d ← digit c; number (acc * 10 + d) s'
  end.

(** Reads [YYYY-MM-DDTHH:MM:SS]. *)
Definition parse_iso (s : string) : option datetime :=
  if negb (Nat.eqb (String.length s) 19) then None
  else if negb (String.eqb (String.substring 4 1 s) "-"
                && String.eqb (String.substring 7 1 s) "-"
                && String.eqb (String.substring 10 1 s) "T"
                && String.eqb (String.substring 13 1 s) ":"
                && String.eqb (String.substring 16 1 s) ":") then None
  else
    y ← number 0 (String.substring 0 4 s);
    mo ← number 0 (String.substring 5 2 s);
    d ← number 0 (String.substring 8 2 s);
    h ← number 0 (String.substring 11 2 s);
    mi ← number 0 (String.substring 14 2 s);
    sec ← number 0 (String.substring 17 2 s);
    match datetime_new (num := Z) y mo d h mi sec 0 with
    | Ok dt => Some dt
    | Raise _ => None
    end.

(** [pd.to_datetime(v, utc=True)] on the inputs the examples use: an
    integer is a number of nanoseconds since the epoch, a string is read as
    [YYYY-MM-DDTHH:MM:SS]. *)
Definition demo_to_datetime (v : pyval Z) : result Z Timestamp :=
  match v with
  | VNum n => Ok n
  | VStr s => match parse_iso s with
              | Some dt => Ok (to_datetime_utc dt)
              | None => Raise (ValueError "Unknown string format")
              end
  | _ => Raise TypeError
  end.

Definition eth_btc : TradingPair := {|
  sid := 1;
  symbol := "eth_btc";
  exchange := "bittrex";
  exchange_symbol := "BTC-ETH";
  start_date := 1420070400000000000;
  end_daily := None;
  end_minute := None
|}.

Inductive demo_style :=
| MarketOrder
| LimitOrder (limit_price : Z)
| StopLimitOrder (limit_price stop_price : Z).

(** 2017-07-14T02:40:00Z *)
Definition demo_now : Timestamp := 1500000000000000000.

Definition demo_env : Env Z := {|
  world := request Z → result Z (pyval Z);
  api := λ r w, (w r, w);
  clock := λ w, (demo_now, w);
  to_datetime := demo_to_datetime;
  self_assets := {[ "BTC-ETH" := eth_btc ]};
  get_symbol := λ a, Ok (exchange_symbol a);
  ExecutionStyle := demo_style;
  is_LimitOrder := λ s, match s with LimitOrder _ => true | _ => false end;
  is_StopLimitOrder :=
    λ s, match s with StopLimitOrder _ _ => true | _ => false end;
  get_limit_price := λ s _, match s with
                            | LimitOrder p | StopLimitOrder p _ => VNum p
                            | MarketOrder => VNone
                            end;
  get_stop_price := λ s _, match s with
                           | StopLimitOrder _ p => VNum p
                           | _ => VNone
                           end;
  class_name := λ s, match s with
                     | MarketOrder => "MarketOrder"
                     | LimitOrder _ => "LimitOrder"
                     | StopLimitOrder _ _ => "StopLimitOrder"
                     end
|}.

(** A remote that is down. *)
Definition offline : request Z → result Z (pyval Z) :=
  λ _, Raise (ExternalError "URLError").

(** A remote that makes the same answer to every request. *)
Definition answering (v : pyval Z) : request Z → result Z (pyval Z) :=
  λ _, Ok v.

(** An order of 100 units at 5, of which 60 are filled, opened at noon,
    cancelled, and closed half an hour later. *)
Definition cancelled_and_closed : pyval Z :=
  VDict [("OrderUuid", VStr "0cb4c4e4-bdc7-4e13-8c13-430e587d2cc1");
         ("Exchange", VStr "BTC-ETH");
         ("Quantity", VNum 100);
         ("QuantityRemaining", VNum 40);
         ("Limit", VNum 5);
         ("CommissionPaid", VNum 1);
         ("PricePerUnit", VNum 5);
         ("Opened", VStr "2017-07-03T12:00:00");
         ("Closed", VStr "2017-07-03T12:30:00");
         ("CancelInitiated", VBool true)].

Definition cancelled_order : Order Z := {|
  o_dt := 1499083200000000000;
  o_asset := eth_btc;
  o_amount := VNum 100;
  o_stop := VNone;
  o_limit := VNum 5;
  o_filled := Some (VNum 60);
  o_id := VStr "0cb4c4e4-bdc7-4e13-8c13-430e587d2cc1";
  o_commission := Some (VNum 1);
  o_status := CANCELLED
|}.

(** One-minute candles of 2017-07-03, named by their minute; the price
    rises by one a minute. *)
Definition candle (minute : string) (price : Z) : pyval Z :=
  VDict [("O", VNum price); ("H", VNum (price + 1)); ("L", VNum (price - 1));
         ("C", VNum price); ("V", VNum 10);
         ("T", VStr ("2017-07-03T00:" +:+ minute +:+ ":00"));
         ("BV", VNum 50)].

Definition bar (instant : Timestamp) (price : Z) : ohlc Z := {|
  ohlc_open := VNum price;
  ohlc_high := VNum (price + 1);
  ohlc_low := VNum (price - 1);
  ohlc_close := VNum price;
  ohlc_volume := VNum 10;
  ohlc_price := VNum price;
  last_traded := instant
|}.

(** Five candles, newest first. *)
Definition five_candles : list (pyval Z) :=
  [candle "05" 105; candle "04" 104; candle "03" 103; candle "02" 102;
   candle "01" 101].

Definition five_bars : list (ohlc Z) :=
  [bar 1499040300000000000 105; bar 1499040240000000000 104;
   bar 1499040180000000000 103; bar 1499040120000000000 102;
   bar 1499040060000000000 101].

Definition ticks : pyval Z :=
  VDict [("success", VBool true); ("message", VStr "");
         ("result", VList five_candles)].

Definition order_book : pyval Z :=
  VDict [("buy", VList [VDict [("Quantity", VNum 12); ("Rate", VNum 4)]]);
         ("sell", VList [VDict [("Quantity", VNum 7); ("Rate", VNum 6)]])].

(** A wallet with two currencies, the answer to an accepted order, a
    quote, and a refusal of the candles of an unknown market. *)
Definition wallet : pyval Z :=
  VList [VDict [("Currency", VStr "BTC"); ("Balance", VNum 5);
                ("Available", VNum 3)];
         VDict [("Currency", VStr "ETH"); ("Balance", VNum 12);
                ("Available", VNum 12)]].

Definition accepted : pyval Z :=
  VDict [("uuid", VStr "614c34e4-8d71-11e3-94b5-425861b86ab6")].

Definition quote : pyval Z :=
  VDict [("Bid", VNum 4); ("Ask", VNum 6); ("Last", VNum 5)].

Definition invalid_market : pyval Z :=
  VDict [("success", VBool false); ("message", VStr "INVALID_MARKET");
         ("result", VNone)].

Definition not_open : pyval Z :=
  VDict [("success", VBool false); ("message", VStr "ORDER_NOT_OPEN")].

(** Two assets: one trading since 2020-01-01 with daily data up to
    2020-06-01, one trading since 2020-02-01 with no data yet. *)
Definition asset_a : TradingPair := {|
  sid := 2; symbol := "neo_eth"; exchange := "bittrex";
  exchange_symbol := "ETH-NEO";
  start_date := 1577836800000000000;
  end_daily := Some 1590969600000000000;
  end_minute := None
|}.

Definition asset_b : TradingPair := {|
  sid := 3; symbol := "omg_eth"; exchange := "bittrex";
  exchange_symbol := "ETH-OMG";
  start_date := 1580515200000000000;
  end_daily := None;
  end_minute := None
|}.

(** The bundle folder of the examples, and archives served for it: one with
    an entry that climbs out of the folder, one with an entry that lands in
    a sibling folder whose name starts like the destination. *)
Definition bundle_root : string := "/data/bittrex".

Definition bundle_path : string :=
  "/data/bittrex/bittrex-daily-eth_btc-2017-10".

Definition climbing_archive : list TarInfo :=
  [{| member_name := "ctable/meta" |}; {| member_name := "../../evil" |}].

Definition sibling_archive : list TarInfo :=
  [{| member_name := "../bittrex-daily-eth_btc-2017-10-evil/payload" |}].

Definition empty_disk : filesystem :=
  {| cwd := "/home/trader"; dirs := ∅; files := ∅ |}.

Definition serving (tar : list TarInfo) : BundleEnv Z := {|
  get_exchange_bundles_folder := λ _, bundle_root;
  download_without_progress := λ _, Ok tar
|}.

(** ** The notions the specification states its properties with *)

Section Notions.
Context {num : Type} {ops : NumOps num} {env : Env num}.
Local Abbreviation pyval := (pyval num).
Local Abbreviation result := (result num).
Local Abbreviation event := (event num).
Local Abbreviation request := (request num).
Local Abbreviation ohlc := (ohlc num).

(** What a run of a method from the state [w] returns, the state it leaves
    and the events it emits. *)
Definition outcome {A} (m : M A) (w : world) : result A := (m w).1.1.
Definition final {A} (m : M A) (w : world) : world := (m w).1.2.
Definition events {A} (m : M A) (w : world) : list event := (m w).2.

(** The remote requests among the events, in order. *)
Definition requests (t : list event) : list request :=
  omap (λ e, match e with Remote r => Some r | _ => None end) t.

(** A trace respects the rate limiter when every remote request comes after
    an acquisition made since the request before it. [armed] tells whether
    such an acquisition is pending. *)
Fixpoint acquires_first (armed : bool) (t : list event) : bool :=
  match t with
  | [] => true
  | AskRequest :: t' => acquires_first true t'
  | Remote _ :: t' => armed && acquires_first false t'
  | Log _ _ :: t' => acquires_first armed t'
  end.

Definition rate_limited (t : list event) : bool := acquires_first false t.

(** A trace that respects the rate limiter whatever came before it, and a
    method all of whose runs leave such a trace. *)
Definition paced (t : list event) : Prop :=
  ∀ armed, acquires_first armed t = true.

Definition Paced {A} (m : M A) : Prop := ∀ w, paced (events m w).

(** A method that emits nothing. *)
Definition Silent {A} (m : M A) : Prop := ∀ w, events m w = [].

(** The request [create_order] sends for a limit order. *)
Definition placement (exchange_symbol : string) (amount : num)
    (is_buy : bool) (price : pyval) : request :=
  if is_buy then Buylimit exchange_symbol (VNum amount) price
  else Selllimit exchange_symbol (VNum (num_abs amount)) price.

(** The remote answers the request for the ticks of [symbol] with the list
    [candles], in the remote's order. *)
Definition ticks_answer (w : world) (symbol frequency : string)
    (candles : list pyval) (w' : world) : Prop :=
  ∃ data message,
    api (Urlopen (ticks_url symbol frequency)) w = (Ok data, w')
    ∧ getitem data (VStr "message") = Ok message
    ∧ truthy message = false
    ∧ getitem data (VStr "result") = Ok (VList candles).

(** The candles read off the remote's list, in the remote's order. *)
Definition candles_read (candles : list pyval) (bars : list ohlc) : Prop :=
  Forall2 (λ candle bar, ohlc_from_candle candle = Ok bar) candles bars.

(** Every candle is newer than the ones after it, and the converse. *)
Definition newest_first (bars : list ohlc) : Prop :=
  StronglySorted (λ a b, last_traded a > last_traded b) bars.

Definition oldest_first (bars : list ohlc) : Prop :=
  StronglySorted (λ a b, last_traded a < last_traded b) bars.

(** [r] is the most recent of [bars]. *)
Definition most_recent (r : ohlc) (bars : list ohlc) : Prop :=
  r ∈ bars ∧ ∀ b, b ∈ bars → last_traded b ≤ last_traded r.

(** [r] is the oldest of [bars]. *)
Definition oldest (r : ohlc) (bars : list ohlc) : Prop :=
  r ∈ bars ∧ ∀ b, b ∈ bars → last_traded r ≤ last_traded b.

(** The canonical status-derivation rule, in the words of the
    specification. *)
Definition status_rule (cancel_initiated closed_present : bool)
  : ORDER_STATUS :=
  if cancel_initiated then CANCELLED
  else if closed_present then FILLED
  else OPEN.

(** Whether a remote order record carries a closed timestamp. *)
Definition closed_present (order_status : pyval) : bool :=
  match getitem order_status (VStr "Closed") with
  | Ok closed => negb (is_none closed)
  | Raise _ => false
  end.

(** A remote order record the reconstruction can read: the keys are there,
    the quantities are numbers, the opening time parses and the market is
    one of the gateway's assets. *)
Definition order_record (order_status : pyval) : Prop :=
  ∃ ci closed opened date amount remaining filled market asset limit uuid
    commission price,
    getitem order_status (VStr "CancelInitiated") = Ok ci
    ∧ getitem order_status (VStr "Closed") = Ok closed
    ∧ getitem order_status (VStr "Opened") = Ok opened
    ∧ to_datetime opened = Ok date
    ∧ getitem order_status (VStr "Quantity") = Ok amount
    ∧ getitem order_status (VStr "QuantityRemaining") = Ok remaining
    ∧ sub amount remaining = Ok filled
    ∧ getitem order_status (VStr "Exchange") = Ok market
    ∧ assets_getitem market = Ok asset
    ∧ getitem order_status (VStr "Limit") = Ok limit
    ∧ getitem order_status (VStr "OrderUuid") = Ok uuid
    ∧ getitem order_status (VStr "CommissionPaid") = Ok commission
    ∧ getitem order_status (VStr "PricePerUnit") = Ok price.

(** The components of a path, and what it is for [target] to lie in
    [directory] or below it once both are made absolute: the components of
    the directory start those of the target. *)
Definition components (path : string) : list string :=
  filter (λ c, c ≠ "") (split_on "/" path).

Definition descendant (cwd directory target : string) : Prop :=
  components (abspath cwd directory) `prefix_of`
  components (abspath cwd target).

(** What [safe_extract] raises. *)
Definition traversal : exn num :=
  Exception "Attempted Path Traversal in Tar File".

(** The data frequencies of the specification, with the tokens the bundle
    utilities know them by. *)
Inductive frequency := Minute | Daily.

Definition frequency_token (f : frequency) : string :=
  match f with Minute => "minute" | Daily => "daily" end.

Definition availability_end (f : frequency) (asset : TradingPair)
  : option Timestamp :=
  match f with Minute => end_minute asset | Daily => end_daily asset end.

Definition list_min (l : list Z) : option Z :=
  match l with
  | [] => None
  | x :: l' => Some (foldr Z.min x l')
  end.

Definition list_max (l : list Z) : option Z :=
  match l with
  | [] => None
  | x :: l' => Some (foldr Z.max x l')
  end.

(** Steps 1 to 4 of the Date-Range Resolver, in the words of the
    specification. *)
Definition spec_earliest_trade (assets : list TradingPair) : option Timestamp :=
  list_min (start_date <$> assets).

Definition spec_last_entry (f : frequency) (assets : list TradingPair)
  : option Timestamp :=
  list_max (omap (availability_end f) assets).

Definition effective_start (requested_start : option Timestamp)
    (earliest_trade : Timestamp) : Timestamp :=
  match requested_start with
  | Some s => if s >=? earliest_trade then s else earliest_trade
  | None => earliest_trade
  end.

Definition effective_end (requested_end last_entry : option Timestamp)
  : option Timestamp :=
  match requested_end with
  | Some e => match last_entry with
              | Some le => if e <=? le then Some e else Some le
              | None => Some e
              end
  | None => last_entry
  end.

Definition no_data (r : result (Timestamp * Timestamp)) : Prop :=
  ∃ asset data_frequency,
    r = Raise (NoDataAvailableOnExchange asset data_frequency).

(** The month after [month] of [year]. *)
Definition next_month (year month : Z) : Z * Z :=
  if month =? 12 then (year + 1, 1) else (year, month + 1).

Definition midnight (year month day : Z) : datetime :=
  {| year := year; month := month; day := day;
     hour := 0; minute := 0; second := 0; microsecond := 0 |}.

End Notions.

(** ** Further notions, for the properties beyond the specification *)

Section MoreNotions.
Context {num : Type} {ops : NumOps num} {env : Env num}.
Local Abbreviation pyval := (pyval num).
Local Abbreviation book_entry := (book_entry num).
Local Abbreviation order_param := (order_param num).

(** The data frequencies [get_candles] knows, and the sides
    [get_orderbook] knows. *)
Definition frequency_tokens : list string :=
  ["minute"; "1m"; "5m"; "30m"; "1h"; "daily"; "1D"].

Definition book_tokens : list string := ["all"; "bid"; "ask"].

(** The order id [cancel_order] asks the remote to cancel. *)
Definition order_id_of (order_param : order_param) : pyval :=
  match order_param with
  | ByOrder o => o_id o
  | ById id => id
  end.

(** The entries of one side of the remote's order book, read in the
    remote's order. *)
Definition entries_read (entries : list pyval) (side : list book_entry)
  : Prop :=
  Forall2 (λ entry e, getitem entry (VStr "Rate") = Ok (rate e)
                      ∧ getitem entry (VStr "Quantity") = Ok (quantity e))
          entries side.

(** The record of a wallet balance reads as the currency [currency], in
    lower case, with [available] at hand. *)
Definition balance_read (balance : pyval) (currency : string)
    (available : pyval) : Prop :=
  ∃ c, getitem balance (VStr "Currency") = Ok c
       ∧ str_lower c = Ok currency
       ∧ getitem balance (VStr "Available") = Ok available.

End MoreNotions.

(** ** Properties of the gateway *)

Section Gateway.
Context {num : Type} {ops : NumOps num} {env : Env num}.
Local Abbreviation pyval := (pyval num).
Local Abbreviation result := (result num).
Local Abbreviation event := (event num).
Local Abbreviation request := (request num).
Local Abbreviation ohlc := (ohlc num).
Local Abbreviation Order := (Order num).
Local Abbreviation paced := (@paced num).
Local Abbreviation rate_limited := (@rate_limited num).
Local Abbreviation requests := (@requests num).
Local Abbreviation book_type := (@book_type num).
Local Abbreviation tick_interval := (@tick_interval num).
Local Abbreviation newest_first := (@newest_first num).
Local Abbreviation oldest_first := (@oldest_first num).
Local Abbreviation oldest := (@oldest num).
Local Abbreviation most_recent := (@most_recent num).

(** *** Running a method step by step *)

Lemma result_bind_inv {A B} (m : result A) (k : A → result B) b :
  m ≫= k = Ok b → ∃ a, m = Ok a ∧ k a = Ok b.
Proof. destruct m as [a|e]; [eauto | discriminate]. Qed.

Lemma bind_inv {A B} (m : M A) (k : A → M B) w b w' t :
  (m ≫= k) w = (Ok b, w', t) →
  ∃ a w1 t1 t2, m w = (Ok a, w1, t1) ∧ k a w1 = (Ok b, w', t2)
                ∧ t = t1 ++ t2.
Proof.
  unfold mbind, M_mbind, M_bind.
  destruct (m w) as [[[a|e] w1] t1]; [|discriminate].
  destruct (k a w1) as [[r w2] t2] eqn:Hk.
  intros [= -> -> <-]. by exists a, w1, t1, t2.
Qed.

Lemma lift_inv {A} (r : result A) w a w' t :
  lift r w = (Ok a, w', t) → r = Ok a ∧ w' = w ∧ t = [].
Proof. unfold lift. by intros [= -> -> <-]. Qed.

Lemma log_inv lvl msg w (u : unit) w' t :
  log lvl msg w = (Ok u, w', t) → w' = w ∧ t = [Log lvl msg].
Proof. unfold log. by intros [= _ -> <-]. Qed.

Ltac inv_run :=
  repeat match goal with
         | H : (_ ≫= _) _ = (Ok _, _, _) |- _ =>
             apply bind_inv in H as (? & ? & ? & ? & ? & H & ?)
         | H : lift _ _ = (Ok _, _, _) |- _ =>
             apply lift_inv in H as (H & ? & ?)
         | H : log _ _ _ = (Ok _, _, _) |- _ =>
             apply log_inv in H as (? & ?)
         | H : _ ≫= _ = Ok _ |- _ =>
             apply result_bind_inv in H as (? & ? & H)
         | H : mret _ = Ok _ |- _ => injection H as H
         end.

(** Rewrites with the equations at hand as far as the run goes. *)
Ltac run_with_hyps :=
  repeat (cbn;
          match goal with
          | H : ?x = Ok _ |- context [?x] => rewrite H
          | H : ?x = Raise _ |- context [?x] => rewrite H
          | H : ?x = (_, _) |- context [?x] => rewrite H
          | H : ?x = true |- context [?x] => rewrite H
          | H : ?x = false |- context [?x] => rewrite H
          end);
  cbn.

(** *** Order reconstruction *)

(** Whenever [_create_order] returns an order, its status follows the rule:
    the record need not have every key for that. *)
Lemma reconstruct_inv (order_status : pyval) w order price w' t :
  _create_order order_status w = (Ok (order, price), w', t) →
  ∃ ci, getitem order_status (VStr "CancelInitiated") = Ok ci
        ∧ o_status order
          = status_rule (truthy ci) (closed_present order_status)
        ∧ getitem order_status (VStr "PricePerUnit") = Ok price
        ∧ w' = w.
Proof.
  unfold _create_order. intros Hrun. inv_run. subst.
  eexists; split; [eassumption|]. split; [|done].
  unfold status_rule, closed_present. cbn.
  destruct (truthy _); [by inv_run; subst|].
  inv_run. match goal with Hc : getitem _ (VStr "Closed") = _ |- _ =>
    rewrite Hc end.
  by destruct (negb _); inv_run; subst.
Qed.

Lemma reconstruct_total (order_status : pyval) :
  order_record order_status →
  ∃ order price, ∀ w,
    _create_order order_status w
    = (Ok (order, price), w,
       [Log INFO "creating catalyst order from Bittrex {}"]).
Proof.
  intros (ci & closed & opened & date & amount & remaining & filled & market
          & asset & limit & uuid & commission & price & Hrec).
  destruct_and!.
  exists {| o_dt := date; o_asset := asset; o_amount := amount;
            o_stop := VNone; o_limit := limit; o_filled := Some filled;
            o_id := uuid; o_commission := Some commission;
            o_status := status_rule (truthy ci) (negb (is_none closed)) |},
         price.
  intros w.
  unfold _create_order, mbind at 1, M_mbind, M_bind, log, lift, status_rule.
  run_with_hyps.
  destruct (truthy ci); run_with_hyps; [reflexivity|].
  by destruct (negb (is_none closed)); run_with_hyps.
Qed.

(** C1. For every remote order record, the status the reconstruction
    derives is CANCELLED if the record is marked cancel-initiated, else
    FILLED if its closed timestamp is present, else OPEN. In particular a
    record that is cancel-initiated and closed comes out CANCELLED. *)
Theorem order_status_derivation (order_status : pyval) (w : world) :
  order_record order_status →
  ∃ order price ci,
    _create_order order_status w
    = (Ok (order, price), w,
       [Log INFO "creating catalyst order from Bittrex {}"])
    ∧ getitem order_status (VStr "CancelInitiated") = Ok ci
    ∧ o_status order
      = status_rule (truthy ci) (closed_present order_status)
    ∧ (truthy ci = true → closed_present order_status = true →
       o_status order = CANCELLED).
Proof.
  intros Hrec.
  destruct (reconstruct_total _ Hrec) as (order & price & Hrun).
  destruct (reconstruct_inv _ _ _ _ _ _ (Hrun w)) as (ci & Hci & Hst & _).
  exists order, price, ci. repeat split; try done.
  intros Htrue _. by rewrite Hst, Htrue.
Qed.

(** *** The rate limiter *)

Lemma events_bind {A B} (m : M A) (k : A → M B) w :
  events (m ≫= k) w
  = events m w ++ match outcome m w with
                  | Ok a => events (k a) (final m w)
                  | Raise _ => []
                  end.
Proof.
  unfold events, outcome, final, mbind, M_mbind, M_bind.
  destruct (m w) as [[[a|e] w1] t1]; cbn; [|by rewrite app_nil_r].
  by destruct (k a w1) as [[r w2] t2].
Qed.

Lemma events_try_except {A} (m : M A) (handler : exn num → M A) w :
  events (try_except m handler) w
  = events m w ++ match outcome m w with
                  | Ok _ => []
                  | Raise e => events (handler e) (final m w)
                  end.
Proof.
  unfold events, outcome, final, try_except.
  destruct (m w) as [[[a|e] w1] t1]; cbn; [by rewrite app_nil_r|].
  by destruct (handler e w1) as [[r w2] t2].
Qed.

Lemma paced_nil : paced [].
Proof. by intros b. Qed.

Lemma paced_app t1 t2 : paced t1 → paced t2 → paced (t1 ++ t2).
Proof.
  intros H1 H2 b. specialize (H1 b). revert b H1.
  induction t1 as [|[|r|lvl msg] t1 IH]; intros b; cbn; [auto..| |auto].
  intros [-> Ht1]%andb_prop. cbn. auto.
Qed.

Lemma paced_log lvl msg t : paced t → paced (Log lvl msg :: t).
Proof. intros Ht b. apply Ht. Qed.

Lemma paced_request r t : paced t → paced (AskRequest :: Remote r :: t).
Proof. intros Ht b. cbn. apply Ht. Qed.

Lemma paced_rate_limited t : paced t → rate_limited t = true.
Proof. intros Ht. apply Ht. Qed.

Lemma Paced_ret {A} (a : A) : Paced (mret a).
Proof. intros w. apply paced_nil. Qed.

Lemma Paced_raise {A} (e : exn num) : Paced (raise (A := A) e).
Proof. intros w. apply paced_nil. Qed.

Lemma Paced_lift {A} (r : result A) : Paced (lift r).
Proof. intros w. apply paced_nil. Qed.

Lemma Paced_log lvl msg : Paced (log lvl msg).
Proof. intros w. by apply paced_log, paced_nil. Qed.

Lemma Paced_utcnow : Paced utcnow.
Proof. intros w. unfold events, utcnow. destruct (clock w). apply paced_nil. Qed.

Lemma Paced_bind {A B} (m : M A) (k : A → M B) :
  Paced m → (∀ a, Paced (k a)) → Paced (m ≫= k).
Proof.
  intros Hm Hk w. rewrite events_bind. apply paced_app; [apply Hm|].
  destruct (outcome m w); [apply Hk | apply paced_nil].
Qed.

Lemma Paced_try_except {A} (m : M A) (handler : exn num → M A) :
  Paced m → (∀ e, Paced (handler e)) → Paced (try_except m handler).
Proof.
  intros Hm Hh w. rewrite events_try_except. apply paced_app; [apply Hm|].
  destruct (outcome m w); [apply paced_nil | apply Hh].
Qed.

Lemma Paced_or_request_error {A} (m : M A) :
  Paced m → Paced (or_request_error m).
Proof. intros Hm. apply Paced_try_except; [done|]. intros e. apply Paced_raise. Qed.

(** The one way a request goes out at the right pace: straight after an
    acquisition. *)
Lemma Paced_acquire_then_request r : Paced (ask_request;; remote r).
Proof.
  intros w. unfold events, mbind, M_mbind, M_bind, ask_request, remote. cbn.
  destruct (api r w). cbn. apply paced_request, paced_nil.
Qed.

Lemma Paced_for_each {A S} (l : list A) (s : S) (body : S → A → M S) :
  (∀ s x, Paced (body s x)) → Paced (for_each l s body).
Proof.
  intros Hbody. revert s.
  induction l as [|x l IH]; intros s; cbn; [apply Paced_ret|].
  apply Paced_bind; auto.
Qed.

Create HintDb paced.
#[local] Hint Resolve Paced_ret Paced_raise Paced_lift Paced_log Paced_utcnow
  Paced_acquire_then_request : paced.
#[local] Hint Extern 2 (Paced (_ ≫= _)) => apply Paced_bind; [|intros ?] : paced.
#[local] Hint Extern 2 (Paced (or_request_error _)) =>
  apply Paced_or_request_error : paced.
#[local] Hint Extern 2 (Paced (try_except _ _)) =>
  apply Paced_try_except; [|intros ?] : paced.
#[local] Hint Extern 2 (Paced (for_each _ _ _)) =>
  apply Paced_for_each; intros ? ? : paced.
#[local] Hint Extern 3 (Paced (if ?b then _ else _)) => destruct b : paced.
#[local] Hint Extern 3 (Paced (match ?x with _ => _ end)) => destruct x : paced.

Lemma get_balances_paced : Paced get_balances.
Proof.
  unfold get_balances. apply Paced_bind; [|intros ?; auto with paced].
  apply Paced_or_request_error, Paced_bind; auto with paced.
Qed.

Lemma reconstruct_paced (order_status : pyval) :
  Paced (_create_order order_status).
Proof. unfold _create_order. auto with paced. Qed.

Lemma get_open_orders_paced asset : Paced (get_open_orders asset).
Proof.
  unfold get_open_orders. pose proof reconstruct_paced. auto 8 with paced.
Qed.

Lemma get_order_paced order_id : Paced (get_order order_id).
Proof.
  unfold get_order. pose proof reconstruct_paced. auto 8 with paced.
Qed.

Lemma cancel_order_paced order_param : Paced (cancel_order order_param).
Proof. unfold cancel_order. auto 8 with paced. Qed.

Lemma create_order_paced asset amount is_buy style :
  Paced (create_order asset amount is_buy style).
Proof.
  unfold create_order.
  apply Paced_bind; [auto with paced|intros _].
  apply Paced_bind; [auto with paced|intros exchange_symbol].
  destruct (_ || _); [|auto with paced].
  apply Paced_bind; [auto with paced|intros _].
  apply Paced_bind.
  - apply Paced_or_request_error. destruct is_buy; auto with paced.
  - intros order_status. auto 10 with paced.
Qed.

Lemma tickers_paced assets : Paced (tickers assets).
Proof. unfold tickers. auto 12 with paced. Qed.

(** The six methods that call [ask_request] respect the rate limiter,
    whatever their arguments and whatever the remote answers: each of their
    requests comes straight after an acquisition. *)
Theorem guarded_methods_rate_limited w :
  rate_limited (events get_balances w) = true
  ∧ (∀ asset amount is_buy style,
       rate_limited (events (create_order asset amount is_buy style) w)
       = true)
  ∧ (∀ asset, rate_limited (events (get_open_orders asset) w) = true)
  ∧ (∀ order_id, rate_limited (events (get_order order_id) w) = true)
  ∧ (∀ order_param, rate_limited (events (cancel_order order_param) w) = true)
  ∧ (∀ assets, rate_limited (events (tickers assets) w) = true).
Proof.
  repeat split; intros; apply paced_rate_limited.
  - apply get_balances_paced.
  - apply create_order_paced.
  - apply get_open_orders_paced.
  - apply get_order_paced.
  - apply cancel_order_paced.
  - apply tickers_paced.
Qed.

(** *** Steps that emit nothing *)

Lemma Silent_ret {A} (a : A) : Silent (mret a).
Proof. by intros w. Qed.

Lemma Silent_raise {A} (e : exn num) : Silent (raise (A := A) e).
Proof. by intros w. Qed.

Lemma Silent_lift {A} (r : result A) : Silent (lift r).
Proof. by intros w. Qed.

Lemma Silent_bind {A B} (m : M A) (k : A → M B) :
  Silent m → (∀ a, Silent (k a)) → Silent (m ≫= k).
Proof.
  intros Hm Hk w. rewrite events_bind, Hm. cbn.
  destruct (outcome m w); [apply Hk | done].
Qed.

Lemma events_bind_silent {A B} (m : M A) (k : A → M B) w :
  (∀ a, Silent (k a)) → events (m ≫= k) w = events m w.
Proof.
  intros Hk. rewrite events_bind.
  destruct (outcome m w); [rewrite Hk|]; apply app_nil_r.
Qed.

Lemma events_lift_bind {A B} (r : result A) (k : A → M B) a w :
  r = Ok a → events (lift r ≫= k) w = events (k a) w.
Proof. intros ->. by rewrite events_bind. Qed.

Lemma events_request_or_error r w :
  events (or_request_error (remote r)) w = [Remote r].
Proof.
  unfold events, or_request_error, try_except, remote, raise.
  by destruct (api r w) as [[data|e] w'].
Qed.

Create HintDb silent.
#[local] Hint Resolve Silent_ret Silent_raise Silent_lift : silent.
#[local] Hint Extern 2 (Silent (_ ≫= _)) =>
  apply Silent_bind; [|intros ?] : silent.
#[local] Hint Extern 3 (Silent (if ?b then _ else _)) => destruct b : silent.
#[local] Hint Extern 3 (Silent (match ?x with _ => _ end)) =>
  destruct x : silent.

(** Two methods send their request without an acquisition. *)
Lemma get_orderbook_events asset order_type limit w api_type :
  book_type order_type = Ok api_type →
  events (get_orderbook asset order_type limit) w
  = [Remote (Getorderbook (exchange_symbol asset) api_type 100)].
Proof.
  intros Htype. unfold get_orderbook, events, mbind, M_mbind, M_bind, lift,
    remote.
  rewrite Htype. cbn. destruct (api _ w) as [[data|e] w']; [|done].
  by destruct (book_sides data api_type).
Qed.

Lemma candles_of_asset_events frequency bar_count ohlc_map asset symbol w :
  get_symbol asset = Ok symbol →
  events (candles_of_asset frequency bar_count ohlc_map asset) w
  = [Remote (Urlopen (ticks_url symbol frequency))].
Proof.
  intros Hsym. unfold candles_of_asset.
  rewrite (events_lift_bind _ _ _ _ Hsym). cbn.
  rewrite events_bind_silent; [apply events_request_or_error|].
  intros data. auto 10 with silent.
Qed.

Lemma get_candles_events data_frequency frequency asset symbol bar_count
    start_date w :
  tick_interval data_frequency = Ok frequency →
  get_symbol asset = Ok symbol →
  events (get_candles data_frequency (OneAsset asset) bar_count start_date) w
  = [Log INFO "retrieving candles";
     Remote (Urlopen (ticks_url symbol frequency))].
Proof.
  intros Hfreq Hsym. unfold get_candles.
  rewrite events_bind. cbn. rewrite (events_lift_bind _ _ _ _ Hfreq).
  rewrite events_bind_silent; [|intros ?; auto with silent].
  cbn. rewrite events_bind_silent; [|intros ?; auto with silent].
  by rewrite (candles_of_asset_events _ _ _ _ _ _ Hsym).
Qed.

Lemma get_candles_unguarded data_frequency frequency asset symbol bar_count
    start_date w :
  tick_interval data_frequency = Ok frequency →
  get_symbol asset = Ok symbol →
  rate_limited
    (events (get_candles data_frequency (OneAsset asset) bar_count start_date)
            w)
  = false.
Proof.
  intros Hfreq Hsym. by rewrite (get_candles_events _ _ _ _ _ _ _ Hfreq Hsym).
Qed.

Lemma get_orderbook_unguarded asset order_type limit w api_type :
  book_type order_type = Ok api_type →
  rate_limited (events (get_orderbook asset order_type limit) w) = false.
Proof. intros Htype. by rewrite (get_orderbook_events _ _ _ _ _ Htype). Qed.

(** *** The order book *)

(** C10. The answer of [get_orderbook] and the request it sends do not
    depend on the depth the caller asks for: the request always carries a
    depth of 100. *)
Theorem get_orderbook_ignores_limit asset order_type (limit1 limit2 : Z) w :
  get_orderbook asset order_type limit1 w
  = get_orderbook asset order_type limit2 w
  ∧ ∀ api_type limit,
      book_type order_type = Ok api_type →
      requests (events (get_orderbook asset order_type limit) w)
      = [Getorderbook (exchange_symbol asset) api_type 100].
Proof.
  split; [reflexivity|]. intros api_type limit Htype.
  by rewrite (get_orderbook_events _ _ _ _ _ Htype).
Qed.

(** *** Order placement *)

Lemma create_order_run asset amount is_buy style w symbol resp w' :
  get_symbol asset = Ok symbol →
  is_LimitOrder style || is_StopLimitOrder style = true →
  api (placement symbol amount is_buy (get_limit_price style is_buy)) w
  = (Ok resp, w') →
  contains "uuid" resp = Ok false →
  outcome (create_order asset amount is_buy style) w
  = if eq_str resp "INSUFFICIENT_FUNDS" then Ok None
    else if eq_str resp "DUST_TRADE_DISALLOWED_MIN_VALUE_50K_SAT" then Ok None
    else Raise (CreateOrderError self_name resp).
Proof.
  intros Hsym Hstyle Hapi Huuid.
  unfold create_order, outcome, mbind, M_mbind, M_bind, log, lift,
    or_request_error, try_except, ask_request, remote, raise, placement in *.
  cbn. rewrite Hsym. cbn. rewrite Hstyle.
  destruct (is_StopLimitOrder style); cbn;
    destruct is_buy; rewrite Hapi; cbn; rewrite Huuid; cbn;
    by repeat (destruct (eq_str resp _); cbn).
Qed.

Lemma eq_str_ne (v : pyval) s : v ≠ VStr s → eq_str v s = false.
Proof.
  destruct v; try done. cbn. intros Hne.
  apply String.eqb_neq. congruence.
Qed.

(** C7. A remote answer that reports insufficient funds or an order below
    the minimum trade size makes [create_order] return no order and raise
    nothing; any other answer without an order id makes it raise
    [CreateOrderError]; a style that is neither a limit nor a stop-limit
    order makes it raise [InvalidOrderStyle], and no request is sent. *)
Theorem create_order_declines asset amount is_buy style w :
  (∀ symbol resp w',
     get_symbol asset = Ok symbol →
     is_LimitOrder style || is_StopLimitOrder style = true →
     api (placement symbol amount is_buy (get_limit_price style is_buy)) w
     = (Ok resp, w') →
     (resp = VStr "INSUFFICIENT_FUNDS"
      ∨ resp = VStr "DUST_TRADE_DISALLOWED_MIN_VALUE_50K_SAT" →
      outcome (create_order asset amount is_buy style) w = Ok None)
     ∧ (contains "uuid" resp = Ok false →
        resp ≠ VStr "INSUFFICIENT_FUNDS" →
        resp ≠ VStr "DUST_TRADE_DISALLOWED_MIN_VALUE_50K_SAT" →
        outcome (create_order asset amount is_buy style) w
        = Raise (CreateOrderError self_name resp)))
  ∧ (is_LimitOrder style || is_StopLimitOrder style = false →
     requests (events (create_order asset amount is_buy style) w) = []
     ∧ ∀ symbol,
         get_symbol asset = Ok symbol →
         outcome (create_order asset amount is_buy style) w
         = Raise (InvalidOrderStyle self_name (class_name style))).
Proof.
  split.
  - intros symbol resp w' Hsym Hstyle Hapi. split.
    + intros Hsoft.
      rewrite (create_order_run _ _ _ _ _ _ _ _ Hsym Hstyle Hapi);
        by destruct Hsoft as [-> | ->].
    + intros Huuid Hne1 Hne2.
      rewrite (create_order_run _ _ _ _ _ _ _ _ Hsym Hstyle Hapi Huuid).
      by rewrite !eq_str_ne.
  - intros Hstyle.
    unfold create_order, outcome, events, mbind, M_mbind, M_bind, log, lift,
      raise.
    cbn. split.
    + destruct (get_symbol asset); cbn; [|done]. by rewrite Hstyle.
    + intros symbol ->. cbn. by rewrite Hstyle.
Qed.

(** *** Open orders *)

Lemma reconstruct_all (records : list pyval) pairs acc w :
  Forall2 (λ order_status pair, ∀ w,
             _create_order order_status w
             = (Ok pair, w,
                [Log INFO "creating catalyst order from Bittrex {}"]))
          records pairs →
  for_each records acc (λ orders order_status,
    order ← _create_order order_status;
    mret (orders ++ [order])) w
  = (Ok (acc ++ pairs), w,
     replicate (length records)
       (Log INFO "creating catalyst order from Bittrex {}")).
Proof.
  intros Hall. revert acc.
  induction Hall as [|order_status pair records pairs Hrun _ IH]; intros acc.
  - cbn. by rewrite app_nil_r.
  - cbn. unfold mbind at 1, M_mbind, M_bind.
    unfold mbind at 1, M_mbind, M_bind. rewrite Hrun. cbn.
    rewrite IH. by rewrite <- app_assoc.
Qed.

(** [get_open_orders] returns what [_create_order] returns for each of the
    remote's records, in the remote's order: pairs of an order and its
    executed price. *)
Lemma get_open_orders_run asset symbol (records : list pyval) pairs w w' :
  get_symbol asset = Ok symbol →
  api (Getopenorders symbol) w = (Ok (VList records), w') →
  Forall2 (λ order_status pair, ∀ w,
             _create_order order_status w
             = (Ok pair, w,
                [Log INFO "creating catalyst order from Bittrex {}"]))
          records pairs →
  get_open_orders asset w
  = (Ok pairs, w',
     AskRequest :: Remote (Getopenorders symbol)
       :: replicate (length records)
            (Log INFO "creating catalyst order from Bittrex {}")).
Proof.
  intros Hsym Hapi Hall. unfold get_open_orders.
  unfold mbind at 1, M_mbind, M_bind, lift. rewrite Hsym.
  unfold mbind at 1, M_mbind, M_bind, or_request_error, try_except.
  unfold mbind at 1, M_mbind, M_bind, ask_request, remote. rewrite Hapi.
  unfold mbind at 1, M_mbind, M_bind. cbn.
  by rewrite (reconstruct_all _ _ [] _ Hall).
Qed.

(** *** Candles *)

Lemma read_all (candles : list pyval) bars acc :
  candles_read candles bars →
  for_each candles acc (λ ohlc_bars candle,
    bar ← ohlc_from_candle candle;
    mret (ohlc_bars ++ [bar]))
  = Ok (acc ++ bars).
Proof.
  intros Hall. revert acc.
  induction Hall as [|candle bar candles bars Hread _ IH]; intros acc.
  - cbn. by rewrite app_nil_r.
  - cbn. rewrite Hread. cbn. rewrite IH. by rewrite <- app_assoc.
Qed.

Lemma outcome_bind {A B} (m : M A) (k : A → M B) w :
  outcome (m ≫= k) w
  = match outcome m w with
    | Ok a => outcome (k a) (final m w)
    | Raise e => Raise e
    end.
Proof.
  unfold outcome, final, mbind, M_mbind, M_bind.
  destruct (m w) as [[[a|e] w1] t1]; cbn; [|done].
  by destruct (k a w1) as [[r w2] t2].
Qed.

Lemma outcome_lift {A} (r : result A) w : outcome (lift r) w = r.
Proof. done. Qed.

Lemma final_lift {A} (r : result A) w : final (lift r) w = w.
Proof. done. Qed.

Lemma outcome_request_or_error r w data w' :
  api r w = (Ok data, w') →
  outcome (or_request_error (remote r)) w = Ok data
  ∧ final (or_request_error (remote r)) w = w'.
Proof.
  intros Hapi. unfold outcome, final, or_request_error, try_except, remote.
  by rewrite Hapi.
Qed.

Lemma candles_of_asset_outcome frequency bar_count asset symbol candles
    w w' :
  get_symbol asset = Ok symbol →
  ticks_answer w symbol frequency candles w' →
  outcome (candles_of_asset frequency bar_count [] asset) w
  = match bar_count with
    | None =>
        first ← match reverse candles with
                | candle :: _ => Ok candle
                | [] => Raise IndexError
                end;
        bar ← ohlc_from_candle first;
        mret [(asset, OneCandle bar)]
    | Some k =>
        ohlc_bars ← for_each (slice_to (reverse candles) k) []
                      (λ ohlc_bars candle,
                         bar ← ohlc_from_candle candle;
                         mret (ohlc_bars ++ [bar]));
        mret [(asset, Bars ohlc_bars)]
    end.
Proof.
  intros Hsym (data & message & Hapi & Hmsg & Hfalsy & Hres).
  destruct (outcome_request_or_error _ _ _ _ Hapi) as [Hout Hfin].
  unfold candles_of_asset.
  rewrite outcome_bind, outcome_lift, Hsym, final_lift.
  rewrite outcome_bind, Hout, Hfin.
  rewrite outcome_bind, outcome_lift, Hmsg, final_lift, Hfalsy.
  rewrite outcome_bind, outcome_lift, Hres, final_lift.
  rewrite outcome_bind, outcome_lift, final_lift. cbn [reversed].
  destruct bar_count as [k|].
  - rewrite outcome_bind, outcome_lift, final_lift.
    by destruct (for_each _ _ _).
  - rewrite outcome_bind, outcome_lift, final_lift.
    destruct (reverse candles) as [|first rest]; [done|].
    rewrite outcome_bind, outcome_lift, final_lift. cbn.
    by destruct (ohlc_from_candle first).
Qed.

Lemma get_candles_outcome data_frequency frequency asset symbol candles
    bar_count start_date w w' :
  tick_interval data_frequency = Ok frequency →
  get_symbol asset = Ok symbol →
  ticks_answer w symbol frequency candles w' →
  outcome (get_candles data_frequency (OneAsset asset) bar_count start_date) w
  = match bar_count with
    | None =>
        first ← match reverse candles with
                | candle :: _ => Ok candle
                | [] => Raise IndexError
                end;
        bar ← ohlc_from_candle first;
        mret (ForAsset (OneCandle bar))
    | Some k =>
        ohlc_bars ← for_each (slice_to (reverse candles) k) []
                      (λ ohlc_bars candle,
                         bar ← ohlc_from_candle candle;
                         mret (ohlc_bars ++ [bar]));
        mret (ForAsset (Bars ohlc_bars))
    end.
Proof.
  intros Hfreq Hsym Hticks. unfold get_candles.
  rewrite outcome_bind. cbn [outcome log fst snd final].
  rewrite outcome_bind, outcome_lift, Hfreq, final_lift.
  rewrite outcome_bind. cbn [for_each].
  rewrite outcome_bind.
  rewrite (candles_of_asset_outcome _ _ _ _ _ _ _ Hsym Hticks).
  destruct bar_count as [k|].
  - destruct (for_each _ _ _); cbn; [|done]. by rewrite decide_True.
  - destruct (reverse candles) as [|first rest]; cbn; [done|].
    destruct (ohlc_from_candle first); cbn; [|done]. by rewrite decide_True.
Qed.

Lemma slice_to_take {A} (l : list A) k :
  0 ≤ k → slice_to l k = take (Z.to_nat k) l.
Proof. intros Hk. unfold slice_to. by rewrite (proj2 (Z.leb_le 0 k) Hk). Qed.

Lemma newest_first_reverse (bars : list ohlc) :
  newest_first bars → oldest_first (reverse bars).
Proof.
  unfold newest_first, oldest_first.
  induction bars as [|bar bars IH]; [constructor|].
  rewrite StronglySorted_cons, reverse_cons, Forall_forall.
  intros [Hnewer Hsorted]. apply StronglySorted_app_2; [|auto|].
  - intros b1 b2 Hb1 ->%list_elem_of_singleton.
    rewrite elem_of_reverse in Hb1. specialize (Hnewer _ Hb1). lia.
  - repeat constructor.
Qed.

(** C8. With a bar count [k], [get_candles] reverses the remote's list and
    returns its first [k] candles: of a list of [n] candles that came
    newest first, the [min k n] oldest ones, in ascending order of time. *)
Theorem get_candles_bars data_frequency frequency asset symbol
    (candles : list pyval) (bars : list ohlc) (k : Z) start_date w w' :
  tick_interval data_frequency = Ok frequency →
  get_symbol asset = Ok symbol →
  ticks_answer w symbol frequency candles w' →
  candles_read candles bars →
  0 ≤ k →
  outcome (get_candles data_frequency (OneAsset asset) (Some k) start_date) w
  = Ok (ForAsset (Bars (take (Z.to_nat k) (reverse bars))))
  ∧ Z.of_nat (length (take (Z.to_nat k) (reverse bars)))
    = Z.min k (Z.of_nat (length candles))
  ∧ (newest_first bars →
     oldest_first (take (Z.to_nat k) (reverse bars))
     ∧ ∀ b b', b ∈ take (Z.to_nat k) (reverse bars) →
               b' ∈ drop (Z.to_nat k) (reverse bars) →
               last_traded b < last_traded b').
Proof.
  intros Hfreq Hsym Hticks Hread Hk. split; [|split].
  - rewrite (get_candles_outcome _ _ _ _ _ _ _ _ _ Hfreq Hsym Hticks).
    rewrite slice_to_take by done.
    by rewrite (read_all _ (take (Z.to_nat k) (reverse bars)) [])
      by apply Forall2_take, Forall2_reverse, Hread.
  - rewrite length_take, length_reverse, (Forall2_length _ _ _ Hread). lia.
  - intros Hsorted%newest_first_reverse. unfold oldest_first in *.
    rewrite <- (take_drop (Z.to_nat k) (reverse bars)) in Hsorted.
    apply StronglySorted_app in Hsorted as (Hlt & Htake & _). split; auto.
Qed.

(** C2, as the code has it. Without a bar count, [get_candles] returns the
    candle at the head of the reversed list, which is the last one of the
    remote's list: of a list that came newest first, the oldest candle. *)
Theorem get_candles_one data_frequency frequency asset symbol
    (candles : list pyval) (bars : list ohlc) start_date w w' :
  tick_interval data_frequency = Ok frequency →
  get_symbol asset = Ok symbol →
  ticks_answer w symbol frequency candles w' →
  candles_read candles bars →
  candles ≠ [] →
  ∃ bar,
    last bars = Some bar
    ∧ outcome (get_candles data_frequency (OneAsset asset) None start_date) w
      = Ok (ForAsset (OneCandle bar))
    ∧ (newest_first bars → oldest bar bars).
Proof.
  intros Hfreq Hsym Hticks Hread Hne.
  rewrite (get_candles_outcome _ _ _ _ _ _ _ _ _ Hfreq Hsym Hticks).
  apply Forall2_reverse in Hread as Hrev.
  inversion Hrev as [Hc Hb|candle bar rcandles rbars Hbar _ Hc Hb].
  { apply (f_equal reverse) in Hc. by rewrite reverse_involutive in Hc. }
  exists bar. split; [|split].
  - by rewrite <- (reverse_involutive bars), <- Hb, reverse_cons, last_snoc.
  - cbn. by rewrite Hbar.
  - intros Hsorted%newest_first_reverse. rewrite <- Hb in Hsorted.
    apply StronglySorted_cons in Hsorted as [Holder _].
    rewrite Forall_forall in Holder.
    assert (Hbars : ∀ b, b ∈ bars ↔ b = bar ∨ b ∈ rbars).
    { intros b. by rewrite <- elem_of_reverse, <- Hb, elem_of_cons. }
    split; [apply Hbars; auto|].
    intros b [->|Hin]%Hbars; [lia|]. specialize (Holder _ Hin). lia.
Qed.

(** *** What a failure of the remote becomes *)

Lemma outcome_or_request_error {A} (m : M A) w :
  outcome (or_request_error m) w
  = match outcome m w with
    | Ok a => Ok a
    | Raise e => Raise (ExchangeRequestError e)
    end.
Proof.
  unfold outcome, or_request_error, try_except, raise.
  by destruct (m w) as [[[a|e] w1] t1].
Qed.

Lemma final_or_request_error {A} (m : M A) w :
  final (or_request_error m) w = final m w.
Proof.
  unfold final, or_request_error, try_except, raise.
  by destruct (m w) as [[[a|e] w1] t1].
Qed.

Lemma outcome_log {B} lvl msg (k : unit → M B) w :
  outcome (log lvl msg ≫= k) w = outcome (k tt) w.
Proof. by rewrite outcome_bind. Qed.

Lemma outcome_acquire_request r w :
  outcome (ask_request;; remote r) w = (api r w).1.
Proof.
  unfold outcome, mbind, M_mbind, M_bind, ask_request, remote.
  by destruct (api r w).
Qed.

Lemma final_acquire_request r w :
  final (ask_request;; remote r) w = (api r w).2.
Proof.
  unfold final, mbind, M_mbind, M_bind, ask_request, remote.
  by destruct (api r w).
Qed.

Lemma outcome_remote r w : outcome (remote r) w = (api r w).1.
Proof. unfold outcome, remote. by destruct (api r w). Qed.

Lemma final_remote r w : final (remote r) w = (api r w).2.
Proof. unfold final, remote. by destruct (api r w). Qed.

Lemma outcome_guarded_failure r w e w' :
  api r w = (Raise e, w') →
  outcome (or_request_error (ask_request;; remote r)) w
  = Raise (ExchangeRequestError e).
Proof.
  intros Hapi. by rewrite outcome_or_request_error, outcome_acquire_request,
    Hapi.
Qed.

(** Seven methods hand a failure of the remote to their caller as an
    [ExchangeRequestError] that carries the remote's exception. *)
Theorem remote_failure_wrapped w e w' :
  (api Getbalances w = (Raise e, w') →
   outcome get_balances w = Raise (ExchangeRequestError e))
  ∧ (∀ asset amount is_buy style symbol,
       get_symbol asset = Ok symbol →
       is_LimitOrder style || is_StopLimitOrder style = true →
       api (placement symbol amount is_buy (get_limit_price style is_buy)) w
       = (Raise e, w') →
       outcome (create_order asset amount is_buy style) w
       = Raise (ExchangeRequestError e))
  ∧ (∀ asset symbol,
       get_symbol asset = Ok symbol →
       api (Getopenorders symbol) w = (Raise e, w') →
       outcome (get_open_orders asset) w = Raise (ExchangeRequestError e))
  ∧ (∀ order_id,
       api (Getorder order_id) w = (Raise e, w') →
       outcome (get_order order_id) w = Raise (ExchangeRequestError e))
  ∧ (∀ order_param,
       api (Cancel (order_id_of order_param)) w = (Raise e, w') →
       outcome (cancel_order order_param) w = Raise (ExchangeRequestError e))
  ∧ (∀ asset assets symbol,
       get_symbol asset = Ok symbol →
       api (Getticker symbol) w = (Raise e, w') →
       outcome (tickers (asset :: assets)) w
       = Raise (ExchangeRequestError e))
  ∧ (∀ data_frequency frequency asset symbol bar_count start_date,
       tick_interval data_frequency = Ok frequency →
       get_symbol asset = Ok symbol →
       api (Urlopen (ticks_url symbol frequency)) w = (Raise e, w') →
       outcome (get_candles data_frequency (OneAsset asset) bar_count
                            start_date) w
       = Raise (ExchangeRequestError e)).
Proof.
  repeat split.
  - intros Hapi. unfold get_balances.
    rewrite outcome_bind, outcome_or_request_error, outcome_log.
    by rewrite outcome_acquire_request, Hapi.
  - intros asset amount is_buy style symbol Hsym Hstyle Hapi.
    unfold create_order.
    rewrite outcome_log, outcome_bind, outcome_lift, Hsym, final_lift, Hstyle.
    rewrite outcome_bind.
    assert (Hquiet : ∀ w0,
      outcome (if is_StopLimitOrder style
               then log WARNING "{} will ignore the stop price"
               else mret tt) w0 = Ok tt
      ∧ final (if is_StopLimitOrder style
               then log WARNING "{} will ignore the stop price"
               else mret tt) w0 = w0)
      by (intros w0; by destruct (is_StopLimitOrder style)).
    destruct (Hquiet w) as [-> ->].
    rewrite outcome_bind, outcome_or_request_error.
    unfold placement in Hapi.
    destruct is_buy; by rewrite outcome_acquire_request, Hapi.
  - intros asset symbol Hsym Hapi. unfold get_open_orders.
    rewrite outcome_bind, outcome_lift, Hsym, final_lift, outcome_bind.
    by rewrite (outcome_guarded_failure _ _ _ _ Hapi).
  - intros order_id Hapi. unfold get_order.
    rewrite outcome_log, outcome_bind.
    by rewrite (outcome_guarded_failure _ _ _ _ Hapi).
  - intros order_param Hapi. unfold order_id_of in Hapi.
    unfold cancel_order. cbv zeta. rewrite outcome_log, outcome_bind.
    by rewrite (outcome_guarded_failure _ _ _ _ Hapi).
  - intros asset assets symbol Hsym Hapi. unfold tickers.
    rewrite outcome_log, outcome_bind. cbn [for_each].
    rewrite outcome_bind, outcome_bind, outcome_lift, Hsym, final_lift.
    rewrite outcome_bind.
    by rewrite (outcome_guarded_failure _ _ _ _ Hapi).
  - intros data_frequency frequency asset symbol bar_count start_date
      Hfreq Hsym Hapi.
    unfold get_candles.
    rewrite outcome_log, outcome_bind, outcome_lift, Hfreq, final_lift.
    rewrite outcome_bind. cbn [for_each]. rewrite outcome_bind.
    unfold candles_of_asset.
    rewrite outcome_bind, outcome_lift, Hsym, final_lift, outcome_bind.
    by rewrite outcome_or_request_error, outcome_remote, Hapi.
Qed.

(** *** Looking an order up, and cancelling one *)

Lemma events_log_bind {B} lvl msg (k : unit → M B) w :
  events (log lvl msg ≫= k) w = Log lvl msg :: events (k tt) w.
Proof. by rewrite events_bind. Qed.

Lemma events_guarded_request r w :
  events (or_request_error (ask_request;; remote r)) w
  = [AskRequest; Remote r].
Proof.
  unfold events, or_request_error, try_except, mbind, M_mbind, M_bind,
    ask_request, remote, raise.
  by destruct (api r w) as [[data|e] w'].
Qed.

Lemma outcome_guarded_request r w data w' :
  api r w = (Ok data, w') →
  outcome (or_request_error (ask_request;; remote r)) w = Ok data
  ∧ final (or_request_error (ask_request;; remote r)) w = w'.
Proof.
  intros Hapi.
  by rewrite outcome_or_request_error, final_or_request_error,
    outcome_acquire_request, final_acquire_request, Hapi.
Qed.

Lemma reconstruct_events (order_status : pyval) w :
  events (_create_order order_status) w
  = [Log INFO "creating catalyst order from Bittrex {}"].
Proof. unfold _create_order. by rewrite events_log_bind. Qed.

Lemma reconstruct_id (order_status : pyval) w order price w' t :
  _create_order order_status w = (Ok (order, price), w', t) →
  getitem order_status (VStr "OrderUuid") = Ok (o_id order).
Proof. unfold _create_order. intros Hrun. inv_run. by simplify_eq/=. Qed.

(** [get_order] sends one request. When the remote knows no such order it
    raises [OrderNotFound]; when the remote answers with a record, the
    order it returns has the status of the rule of [_create_order], and the
    id of the record, whatever id was asked for. *)
Theorem get_order_outcome order_id w (order_status : pyval) w' :
  api (Getorder order_id) w = (Ok order_status, w') →
  requests (events (get_order order_id) w) = [Getorder order_id]
  ∧ (order_status = VNone →
     outcome (get_order order_id) w
     = Raise (OrderNotFound order_id self_name))
  ∧ (order_record order_status →
     ∃ order price ci,
       outcome (get_order order_id) w = Ok (order, price)
       ∧ getitem order_status (VStr "CancelInitiated") = Ok ci
       ∧ o_status order
         = status_rule (truthy ci) (closed_present order_status)
       ∧ getitem order_status (VStr "OrderUuid") = Ok (o_id order)
       ∧ getitem order_status (VStr "PricePerUnit") = Ok price).
Proof.
  intros Hapi.
  destruct (outcome_guarded_request _ _ _ _ Hapi) as [Hout Hfin].
  split; [|split].
  - unfold get_order. rewrite events_log_bind, events_bind.
    rewrite events_guarded_request, Hout, Hfin.
    destruct (is_none order_status); [done|].
    by rewrite reconstruct_events.
  - intros ->. unfold get_order.
    by rewrite outcome_log, outcome_bind, Hout.
  - intros Hrec.
    destruct (reconstruct_total _ Hrec) as (order & price & Hrun).
    destruct (reconstruct_inv _ _ _ _ _ _ (Hrun w'))
      as (ci & Hci & Hst & Hprice & _).
    exists order, price, ci. repeat split; try done.
    + unfold get_order. rewrite outcome_log, outcome_bind, Hout, Hfin.
      replace (is_none order_status) with false.
      * unfold outcome. by rewrite Hrun.
      * by destruct order_status.
    + exact (reconstruct_id _ _ _ _ _ _ (Hrun w')).
Qed.

(** [cancel_order] raises [OrderCancelError] exactly when the remote's
    answer is a dictionary with a message; a dictionary without one is a
    success. An answer that is a string or a list is a success unless it
    contains the word, and then the lookup of the message raises
    [TypeError], as does any other answer. *)
Theorem cancel_order_outcome order_param w (status : pyval) w' :
  api (Cancel (order_id_of order_param)) w = (Ok status, w') →
  outcome (cancel_order order_param) w
  = match status with
    | VDict d =>
        match dict_get d "message" with
        | Some message =>
            Raise (OrderCancelError (order_id_of order_param) self_name
                                    message)
        | None => Ok tt
        end
    | VStr s => if is_substring "message" s then Raise TypeError else Ok tt
    | VList l =>
        if existsb (λ x, eq_str x "message") l then Raise TypeError
        else Ok tt
    | _ => Raise TypeError
    end.
Proof.
  unfold order_id_of. intros Hapi.
  destruct (outcome_guarded_request _ _ _ _ Hapi) as [Hout Hfin].
  unfold cancel_order. cbv zeta.
  rewrite outcome_log, outcome_bind, Hout, Hfin.
  rewrite outcome_bind, outcome_lift, final_lift.
  destruct status as [| | |s|l|d]; cbn [contains]; try done.
  - by destruct (is_substring _ _).
  - by destruct (existsb _ _).
  - destruct (dict_get d "message") as [message|] eqn:Hmsg; [|done].
    rewrite outcome_bind, outcome_lift. cbn [getitem]. by rewrite Hmsg.
Qed.

(** *** What the order book and the candles refuse *)

Lemma book_type_invalid order_type :
  order_type ∉ book_tokens →
  book_type order_type = Raise (ValueError "invalid type").
Proof.
  unfold book_tokens, book_type. rewrite !not_elem_of_cons.
  intros (Hall & Hbid & Hask & _).
  by rewrite (proj2 (String.eqb_neq _ _) Hall),
    (proj2 (String.eqb_neq _ _) Hbid), (proj2 (String.eqb_neq _ _) Hask).
Qed.

(** [get_orderbook] refuses a side it does not know with [ValueError],
    before anything is sent; and a failure of the remote reaches the
    caller as it is, not wrapped in an [ExchangeRequestError]. *)
Theorem get_orderbook_failures asset order_type limit w :
  (order_type ∉ book_tokens →
   outcome (get_orderbook asset order_type limit) w
   = Raise (ValueError "invalid type")
   ∧ events (get_orderbook asset order_type limit) w = [])
  ∧ (∀ api_type e w',
       book_type order_type = Ok api_type →
       api (Getorderbook (exchange_symbol asset) api_type 100) w
       = (Raise e, w') →
       outcome (get_orderbook asset order_type limit) w = Raise e).
Proof.
  split.
  - intros Hinvalid%book_type_invalid. unfold get_orderbook.
    by rewrite outcome_bind, events_bind, outcome_lift, Hinvalid.
  - intros api_type e w' Htype Hapi. unfold get_orderbook.
    rewrite outcome_bind, outcome_lift, Htype, final_lift.
    by rewrite outcome_bind, outcome_remote, Hapi.
Qed.

Lemma tick_interval_tokens data_frequency :
  data_frequency ∈ frequency_tokens
  ↔ ∃ frequency, tick_interval data_frequency = Ok frequency.
Proof.
  unfold frequency_tokens, tick_interval. rewrite !elem_of_cons.
  destruct (String.eqb_spec data_frequency "minute");
    [split; eauto|].
  destruct (String.eqb_spec data_frequency "1m"); [split; eauto 10|].
  destruct (String.eqb_spec data_frequency "5m"); [split; eauto 10|].
  destruct (String.eqb_spec data_frequency "30m"); [split; eauto 10|].
  destruct (String.eqb_spec data_frequency "1h"); [split; eauto 10|].
  destruct (String.eqb_spec data_frequency "daily"); [split; eauto 10|].
  destruct (String.eqb_spec data_frequency "1D"); [split; eauto 10|].
  cbn. split; [|by intros [? ?]].
  rewrite elem_of_nil. intros Hin.
  repeat (destruct Hin as [Hin|Hin]; [done|]). done.
Qed.

(** [get_candles] takes seven data frequencies. Any other makes it raise
    [InvalidHistoryFrequencyError] with nothing sent, whatever the assets
    are. *)
Theorem get_candles_invalid_frequency data_frequency assets bar_count
    start_date w :
  data_frequency ∉ frequency_tokens →
  outcome (get_candles data_frequency assets bar_count start_date) w
  = Raise (InvalidHistoryFrequencyError data_frequency)
  ∧ requests (events (get_candles data_frequency assets bar_count
                                  start_date) w) = [].
Proof.
  intros Hinvalid.
  assert (Hraise : tick_interval data_frequency
                   = Raise (InvalidHistoryFrequencyError data_frequency)).
  { rewrite tick_interval_tokens in Hinvalid. unfold tick_interval in *.
    repeat match goal with
           | |- context [if ?b then _ else _] =>
               destruct b; [exfalso; apply Hinvalid; eauto|]
           end.
    done. }
  unfold get_candles.
  by rewrite outcome_log, events_log_bind, outcome_bind, events_bind,
    outcome_lift, Hraise.
Qed.

(** *** Placing an order *)

(** For a limit or a stop-limit order [create_order] sends one request,
    whatever the remote answers: a purchase of the amount, or a sale of
    its absolute value, at the limit price. When the answer carries an
    order id, the order returned has that id, the amount with its sign, the
    prices of the style and the time of the clock, and is open. *)
Theorem create_order_places asset amount is_buy style symbol w :
  get_symbol asset = Ok symbol →
  is_LimitOrder style || is_StopLimitOrder style = true →
  requests (events (create_order asset amount is_buy style) w)
  = [placement symbol amount is_buy (get_limit_price style is_buy)]
  ∧ ∀ resp w' order_id,
      api (placement symbol amount is_buy (get_limit_price style is_buy)) w
      = (Ok resp, w') →
      contains "uuid" resp = Ok true →
      getitem resp (VStr "uuid") = Ok order_id →
      outcome (create_order asset amount is_buy style) w
      = Ok (Some {| o_dt := (clock w').1;
                    o_asset := asset;
                    o_amount := VNum amount;
                    o_stop := get_stop_price style is_buy;
                    o_limit := get_limit_price style is_buy;
                    o_filled := None;
                    o_id := order_id;
                    o_commission := None;
                    o_status := OPEN |}).
Proof.
  intros Hsym Hstyle. split.
  - unfold create_order.
    rewrite events_log_bind, events_bind, outcome_lift, Hsym, final_lift,
      Hstyle.
    cbn [events lift snd app requests omap list_omap].
    rewrite events_bind.
    assert (Hquiet : ∀ w0,
      requests (events (if is_StopLimitOrder style
                        then log WARNING "{} will ignore the stop price"
                        else mret tt) w0) = []
      ∧ outcome (if is_StopLimitOrder style
                 then log WARNING "{} will ignore the stop price"
                 else mret tt) w0 = Ok tt
      ∧ final (if is_StopLimitOrder style
               then log WARNING "{} will ignore the stop price"
               else mret tt) w0 = w0)
      by (intros w0; by destruct (is_StopLimitOrder style)).
    destruct (Hquiet w) as (Hnone & -> & ->).
    unfold requests in *. rewrite omap_app, Hnone. cbn [app].
    rewrite events_bind, omap_app.
    replace (if is_buy
             then remote (Buylimit symbol (VNum amount)
                                   (get_limit_price style is_buy))
             else remote (Selllimit symbol (VNum (num_abs amount))
                                    (get_limit_price style is_buy)))
      with (remote (placement symbol amount is_buy
                              (get_limit_price style is_buy)))
      by by destruct is_buy.
    rewrite events_guarded_request. cbn [omap list_omap app].
    f_equal.
    destruct (outcome _ _) as [resp|]; [|done].
    rewrite events_bind. cbn [events lift snd app outcome fst].
    destruct (contains "uuid" resp) as [[]|]; [| |done].
    + rewrite events_bind. cbn [events lift snd app outcome fst].
      destruct (getitem resp _); [|done].
      rewrite events_bind.
      unfold events at 1, outcome, final, utcnow.
      by destruct (clock _).
    + by repeat destruct (eq_str resp _).
  - intros resp w' order_id Hapi Huuid Hid.
    destruct (outcome_guarded_request _ _ _ _ Hapi) as [Hout Hfin].
    unfold create_order.
    rewrite outcome_log, outcome_bind, outcome_lift, Hsym, final_lift, Hstyle.
    rewrite outcome_bind.
    assert (Hquiet : ∀ w0,
      outcome (if is_StopLimitOrder style
               then log WARNING "{} will ignore the stop price"
               else mret tt) w0 = Ok tt
      ∧ final (if is_StopLimitOrder style
               then log WARNING "{} will ignore the stop price"
               else mret tt) w0 = w0)
      by (intros w0; by destruct (is_StopLimitOrder style)).
    destruct (Hquiet w) as [-> ->].
    replace (if is_buy
             then remote (Buylimit symbol (VNum amount)
                                   (get_limit_price style is_buy))
             else remote (Selllimit symbol (VNum (num_abs amount))
                                    (get_limit_price style is_buy)))
      with (remote (placement symbol amount is_buy
                              (get_limit_price style is_buy)))
      by by destruct is_buy.
    rewrite outcome_bind, Hout, Hfin.
    rewrite outcome_bind, outcome_lift, Huuid, final_lift.
    rewrite outcome_bind, outcome_lift, Hid, final_lift.
    rewrite outcome_bind.
    unfold outcome, final, utcnow. by destruct (clock w').
Qed.

(** *** Wallet balances *)

Lemma lower_ascii_idem c : lower_ascii (lower_ascii c) = lower_ascii c.
Proof. by destruct c as [[] [] [] [] [] [] [] []]. Qed.

Lemma lower_idem s : lower (lower s) = lower s.
Proof.
  induction s as [|c s IH]; [done|]. cbn. by rewrite lower_ascii_idem, IH.
Qed.


Lemma balance_read_lower (balance : pyval) currency available :
  balance_read balance currency available → lower currency = currency.
Proof.
  intros (c & _ & Hlower & _). destruct c; try done.
  injection Hlower as <-. apply lower_idem.
Qed.

Lemma balances_loop (items : list pyval) (acc m : gmap string pyval) :
  for_each items acc (λ std_balances balance,
    c ← getitem balance (VStr "Currency");
    currency ← str_lower c;
    available ← getitem balance (VStr "Available");
    mret (<[currency := available]> std_balances))
  = Ok m →
  (∀ currency available, m !! currency = Some available →
     acc !! currency = Some available
     ∨ ∃ balance, balance ∈ items ∧ balance_read balance currency available)
  ∧ (∀ balance, balance ∈ items →
       ∃ currency available,
         balance_read balance currency available ∧ is_Some (m !! currency))
  ∧ (∀ currency, is_Some (acc !! currency) → is_Some (m !! currency)).
Proof.
  revert acc. induction items as [|balance items IH]; intros acc.
  { intros [= <-]. split; [auto|]. split; [|done].
    by intros balance ?%elem_of_nil. }
  cbn [for_each]. intros Hrun. inv_run.
  match goal with
  | Hc : getitem balance (VStr "Currency") = Ok ?c,
    Hl : str_lower ?c = Ok ?currency,
    Ha : getitem balance (VStr "Available") = Ok ?available |- _ =>
      assert (Hread : balance_read balance currency available)
        by (by exists c);
      rename currency into held; rename available into amount
  end.
  match goal with
  | Hbody : <[held := amount]> acc = ?acc' |- _ => subst acc'
  end.
  match goal with
  | Hrest : for_each _ _ _ = Ok m |- _ =>
      destruct (IH _ Hrest) as (Hsound & Hcomplete & Hkept)
  end.
  split; [|split].
  - intros currency available [Hacc|(b & Hin & Hb)]%Hsound.
    + destruct (decide (held = currency)) as [<-|Hne].
      * rewrite lookup_insert_eq in Hacc. injection Hacc as <-.
        right. exists balance. split; [left|done].
      * rewrite lookup_insert_ne in Hacc by done. by left.
    + right. exists b. split; [by right|done].
  - intros b [->|Hin]%elem_of_cons; [|by apply Hcomplete].
    exists held, amount. split; [done|]. apply Hkept.
    rewrite lookup_insert_eq. eauto.
  - intros currency Hsome. apply Hkept.
    destruct (decide (held = currency)) as [<-|Hne].
    + rewrite lookup_insert_eq. eauto.
    + by rewrite lookup_insert_ne.
Qed.

Lemma final_log {B} lvl msg (k : unit → M B) w :
  final (log lvl msg ≫= k) w = final (k tt) w.
Proof.
  unfold final, mbind, M_mbind, M_bind, log. by destruct (k tt w) as [[r w1] t].
Qed.


(** *** Tickers *)

Lemma ret_inv {A} (a b : A) w w' t :
  (mret a : M A) w = (Ok b, w', t) → b = a ∧ w' = w ∧ t = [].
Proof. by intros [= -> -> <-]. Qed.

Lemma guarded_request_inv r w a w' t :
  or_request_error (ask_request;; remote r) w = (Ok a, w', t) →
  api r w = (Ok a, w') ∧ t = [AskRequest; Remote r].
Proof.
  unfold or_request_error, try_except, mbind, M_mbind, M_bind, ask_request,
    remote, raise.
  destruct (api r w) as [[data|e] w1]; cbn; [|done]. by intros [= -> -> <-].
Qed.

Lemma utcnow_inv w now w' t :
  utcnow w = (Ok now, w', t) → clock w = (now, w') ∧ t = [].
Proof. unfold utcnow. destruct (clock w). by intros [= -> -> <-]. Qed.

Lemma dict_lookup_set {K V} `{EqDecision K} (d : list (K * V)) k v k' :
  dict_lookup (dict_set d k v) k'
  = if decide (k = k') then Some v else dict_lookup d k'.
Proof.
  induction d as [|[k0 v0] d IH]; cbn; [done|].
  destruct (decide (k0 = k)) as [->|Hne]; cbn.
  - by destruct (decide (k = k')).
  - rewrite IH. destruct (decide (k0 = k')) as [->|]; [|done].
    by rewrite decide_False.
Qed.

Lemma tickers_loop (assets : list TradingPair) acc w ticks w' t :
  for_each assets acc (λ ticks asset,
    symbol ← lift (get_symbol asset);
    ticker ← or_request_error
      (ask_request;;
       remote (Getticker symbol));
    now ← utcnow;
    bid ← lift (getitem ticker (VStr "Bid"));
    ask ← lift (getitem ticker (VStr "Ask"));
    last ← lift (getitem ticker (VStr "Last"));
    mret (dict_set ticks asset
            {| ticker_timestamp := now; ticker_bid := bid;
               ticker_ask := ask; ticker_last_price := last |})) w
  = (Ok ticks, w', t) →
  ∃ symbols,
    Forall2 (λ asset symbol, get_symbol asset = Ok symbol) assets symbols
    ∧ requests t = Getticker <$> symbols
    ∧ ∀ asset, is_Some (dict_lookup ticks asset)
               ↔ asset ∈ assets ∨ is_Some (dict_lookup acc asset).
Proof.
  revert acc w t. induction assets as [|asset assets IH]; intros acc w t.
  { intros (-> & _ & ->)%ret_inv. exists []. split; [constructor|].
    split; [done|]. intros asset. rewrite elem_of_nil.
    split; [auto | by intros [[]|]]. }
  cbn [for_each]. intros Hrun.
  apply bind_inv in Hrun as (acc' & w1 & t1 & t2 & Hround & Hrest & ->).
  apply bind_inv in Hround as (symbol & ? & ? & ? & Hsym & Hround & ->).
  apply lift_inv in Hsym as (Hsym & -> & ->).
  apply bind_inv in Hround as (ticker & ? & ? & ? & Hreq & Hround & ->).
  apply guarded_request_inv in Hreq as (_ & ->).
  apply bind_inv in Hround as (now & ? & ? & ? & Hnow & Hround & ->).
  apply utcnow_inv in Hnow as (_ & ->).
  apply bind_inv in Hround as (bid & ? & ? & ? & Hbid & Hround & ->).
  apply lift_inv in Hbid as (_ & -> & ->).
  apply bind_inv in Hround as (ask & ? & ? & ? & Hask & Hround & ->).
  apply lift_inv in Hask as (_ & -> & ->).
  apply bind_inv in Hround as (last & ? & ? & ? & Hlast & Hround & ->).
  apply lift_inv in Hlast as (_ & -> & ->).
  apply ret_inv in Hround as (-> & _ & ->).
  destruct (IH _ _ _ Hrest) as (symbols & Hsyms & Hreqs & Hkeys).
  exists (symbol :: symbols). split; [by constructor|]. split.
  - unfold requests in *. rewrite omap_app, Hreqs. done.
  - intros a. rewrite Hkeys, dict_lookup_set, elem_of_cons.
    destruct (decide (asset = a)) as [->|Hne]; [split; eauto|].
    split; [intros [|]; auto|]. intros [[|]|]; auto. congruence.
Qed.

(** When [tickers] returns, it has sent one request for a ticker per
    asset, in the order of the assets, and it returns a ticker for every
    asset it was given and for no other. *)
Theorem tickers_requests (assets : list TradingPair) w ticks :
  outcome (tickers assets) w = Ok ticks →
  ∃ symbols,
    Forall2 (λ asset symbol, get_symbol asset = Ok symbol) assets symbols
    ∧ requests (events (tickers assets) w) = Getticker <$> symbols
    ∧ ∀ asset, asset ∈ assets ↔ is_Some (dict_lookup ticks asset).
Proof.
  unfold outcome, events. destruct (tickers assets w) as [[r w'] t] eqn:Hrun.
  cbn. intros ->. unfold tickers in Hrun.
  apply bind_inv in Hrun as ([] & ? & ? & ? & Hlog & Hrun & ->).
  apply log_inv in Hlog as (-> & ->).
  apply bind_inv in Hrun as (ticks' & w1 & t1 & ? & Hloop & Hrun & ->).
  apply bind_inv in Hrun as ([] & ? & ? & ? & Hlog & Hrun & ->).
  apply log_inv in Hlog as (-> & ->).
  apply ret_inv in Hrun as (-> & _ & ->).
  destruct (tickers_loop _ _ _ _ _ _ Hloop) as (symbols & Hsyms & Hreqs & Hkeys).
  exists symbols. split; [done|]. split.
  - unfold requests in *. rewrite !omap_app, Hreqs. cbn.
    by rewrite app_nil_r.
  - intros asset. rewrite Hkeys. cbn. split; [auto|]. intros [|[]]; [done|].
    discriminate.
Qed.

(** *** Candles: a negative bar count, an empty list, a refusal *)

(** A negative bar count is the end of a slice: of a list the remote gave
    newest first, [get_candles] leaves off as many candles at the head as
    the count says, and returns the rest oldest first. *)
Theorem get_candles_negative_count data_frequency frequency asset symbol
    (candles : list pyval) (bars : list ohlc) (k : Z) start_date w w' :
  tick_interval data_frequency = Ok frequency →
  get_symbol asset = Ok symbol →
  ticks_answer w symbol frequency candles w' →
  candles_read candles bars →
  k < 0 →
  outcome (get_candles data_frequency (OneAsset asset) (Some k) start_date) w
  = Ok (ForAsset (Bars (reverse (drop (Z.to_nat (- k)) bars)))).
Proof.
  intros Hfreq Hsym Hticks Hread Hk.
  rewrite (get_candles_outcome _ _ _ _ _ _ _ _ _ Hfreq Hsym Hticks).
  unfold slice_to. rewrite (proj2 (Z.leb_gt 0 k)) by done.
  rewrite length_reverse.
  assert (Hbars : take (Z.to_nat (Z.of_nat (length candles) + k))
                       (reverse bars)
                  = reverse (drop (Z.to_nat (- k)) bars)).
  { rewrite take_reverse, (Forall2_length _ _ _ Hread).
    destruct (decide (Z.to_nat (- k) ≤ length bars)%nat) as [Hle|Hgt].
    - do 2 f_equal. lia.
    - rewrite !drop_ge; [done|lia..]. }
  rewrite <- Hbars.
  by rewrite (read_all _ (take _ (reverse bars)) [])
    by apply Forall2_take, Forall2_reverse, Hread.
Qed.

(** An answer of the remote that carries a message is refused with an
    [ExchangeRequestError] that quotes it. An answer with no candles makes
    [get_candles] raise [IndexError] when no bar count is given, and
    return no bars when one is. *)
Theorem get_candles_without_candles data_frequency frequency asset symbol
    start_date w :
  tick_interval data_frequency = Ok frequency →
  get_symbol asset = Ok symbol →
  (∀ (data message : pyval) w' bar_count,
     api (Urlopen (ticks_url symbol frequency)) w = (Ok data, w') →
     getitem data (VStr "message") = Ok message →
     truthy message = true →
     outcome (get_candles data_frequency (OneAsset asset) bar_count
                          start_date) w
     = Raise (ExchangeRequestError_format "Unable to fetch candles {}"
                                          message))
  ∧ (∀ w',
       ticks_answer w symbol frequency [] w' →
       outcome (get_candles data_frequency (OneAsset asset) None start_date) w
       = Raise IndexError
       ∧ ∀ k,
           outcome (get_candles data_frequency (OneAsset asset) (Some k)
                                start_date) w
           = Ok (ForAsset (Bars []))).
Proof.
  intros Hfreq Hsym. split.
  - intros data message w' bar_count Hapi Hmsg Hrefused.
    destruct (outcome_request_or_error _ _ _ _ Hapi) as [Hout Hfin].
    unfold get_candles.
    rewrite outcome_log, outcome_bind, outcome_lift, Hfreq, final_lift.
    rewrite outcome_bind. cbn [for_each]. rewrite outcome_bind.
    unfold candles_of_asset.
    rewrite outcome_bind, outcome_lift, Hsym, final_lift.
    rewrite outcome_bind, Hout, Hfin.
    by rewrite outcome_bind, outcome_lift, Hmsg, final_lift, Hrefused.
  - intros w' Hticks. split; [|intros k].
    + by rewrite (get_candles_outcome _ _ _ _ _ _ _ _ _ Hfreq Hsym Hticks).
    + rewrite (get_candles_outcome _ _ _ _ _ _ _ _ _ Hfreq Hsym Hticks).
      unfold slice_to. cbn [reverse rev_append length].
      by destruct (0 <=? k); rewrite take_nil.
Qed.

(** *** The two sides of the order book *)

Lemma entries_loop (entries : list pyval) side order_type
    (result : gmap string (list (book_entry num))) :
  entries_read entries side →
  for_each entries result (λ result entry,
    r ← getitem entry (VStr "Rate");
    q ← getitem entry (VStr "Quantity");
    mret (alter (λ l, l ++ [{| rate := r; quantity := q |}])
                order_type result))
  = Ok (alter (λ l, l ++ side) order_type result).
Proof.
  intros Hall. revert result.
  induction Hall as [|entry e entries side [Hrate Hquantity] _ IH];
    intros result.
  - cbn. f_equal. apply map_eq. intros key.
    destruct (decide (key = order_type)) as [->|Hne].
    + rewrite lookup_alter_eq. destruct (result !! order_type); [|done].
      cbn. by rewrite app_nil_r.
    + by rewrite lookup_alter_ne.
  - cbn [for_each]. rewrite Hrate. cbn. rewrite Hquantity. cbn.
    rewrite IH. f_equal. apply map_eq. intros key.
    destruct (decide (key = order_type)) as [->|Hne].
    + rewrite !lookup_alter_eq. destruct (result !! order_type); [|done].
      cbn. rewrite <- app_assoc. by destruct e.
    + by rewrite !lookup_alter_ne.
Qed.

(** When the remote answers with its buy side and its sell side,
    [get_orderbook] returns the first as the bids and the second as the
    asks, each entry with its rate and its quantity, in the remote's
    order. *)
Theorem get_orderbook_sides asset order_type limit api_type w w'
    (buys sells : list pyval) (bids asks : list (book_entry num)) :
  book_type order_type = Ok api_type →
  api (Getorderbook (exchange_symbol asset) api_type 100) w
  = (Ok (VDict [("buy", VList buys); ("sell", VList sells)]), w') →
  entries_read buys bids →
  entries_read sells asks →
  outcome (get_orderbook asset order_type limit) w
  = Ok (<["asks" := asks]> (<["bids" := bids]> ∅)).
Proof.
  intros Htype Hapi Hbuys Hsells. unfold get_orderbook.
  rewrite outcome_bind, outcome_lift, Htype, final_lift.
  rewrite outcome_bind, outcome_remote, final_remote, Hapi. cbn [fst snd].
  rewrite outcome_lift. unfold book_sides.
  repeat (cbn [iter fmap list_fmap mbind result_mbind result_bind for_each
               eq_str fst snd getitem dict_get mret result_ret];
          match goal with
          | |- context [String.eqb ?a ?b] =>
              let v := eval vm_compute in (String.eqb a b) in
              change (String.eqb a b) with v
          | |- context [for_each buys] =>
              rewrite (entries_loop _ _ _ _ Hbuys)
          | |- context [for_each sells] =>
              rewrite (entries_loop _ _ _ _ Hsells)
          end).
  reflexivity.
Qed.

(** *** Candles of several assets *)

Lemma request_inv r w a w' t :
  or_request_error (remote r) w = (Ok a, w', t) →
  api r w = (Ok a, w') ∧ t = [Remote r].
Proof.
  unfold or_request_error, try_except, remote, raise.
  destruct (api r w) as [[data|e] w1]; cbn; [|done]. by intros [= -> -> <-].
Qed.

Lemma candles_round frequency bar_count acc asset w acc' w' t :
  candles_of_asset frequency bar_count acc asset w = (Ok acc', w', t) →
  ∃ symbol c,
    get_symbol asset = Ok symbol
    ∧ t = [Remote (Urlopen (ticks_url symbol frequency))]
    ∧ acc' = dict_set acc asset c.
Proof.
  unfold candles_of_asset. intros Hrun.
  apply bind_inv in Hrun as (symbol & ? & ? & ? & Hsym & Hrun & ->).
  apply lift_inv in Hsym as (Hsym & -> & ->).
  apply bind_inv in Hrun as (data & ? & ? & ? & Hreq & Hrun & ->).
  apply request_inv in Hreq as (_ & ->).
  apply bind_inv in Hrun as (message & ? & ? & ? & Hmsg & Hrun & ->).
  apply lift_inv in Hmsg as (_ & -> & ->).
  destruct (truthy message); [discriminate|].
  apply bind_inv in Hrun as (candles & ? & ? & ? & Hres & Hrun & ->).
  apply lift_inv in Hres as (_ & -> & ->).
  apply bind_inv in Hrun as (ordered & ? & ? & ? & Hrev & Hrun & ->).
  apply lift_inv in Hrev as (_ & -> & ->).
  exists symbol. destruct bar_count as [k|].
  - apply bind_inv in Hrun as (bars & ? & ? & ? & Hbars & Hrun & ->).
    apply lift_inv in Hbars as (_ & -> & ->).
    apply ret_inv in Hrun as (-> & _ & ->). by exists (Bars bars).
  - apply bind_inv in Hrun as (first & ? & ? & ? & Hfirst & Hrun & ->).
    apply lift_inv in Hfirst as (_ & -> & ->).
    apply bind_inv in Hrun as (bar & ? & ? & ? & Hbar & Hrun & ->).
    apply lift_inv in Hbar as (_ & -> & ->).
    apply ret_inv in Hrun as (-> & _ & ->). by exists (OneCandle bar).
Qed.

Lemma candles_loop frequency bar_count (assets : list TradingPair) acc w
    ohlc_map w' t :
  for_each assets acc (candles_of_asset frequency bar_count) w
  = (Ok ohlc_map, w', t) →
  ∃ symbols,
    Forall2 (λ asset symbol, get_symbol asset = Ok symbol) assets symbols
    ∧ requests t = (λ symbol, Urlopen (ticks_url symbol frequency)) <$> symbols
    ∧ ∀ asset, is_Some (dict_lookup ohlc_map asset)
               ↔ asset ∈ assets ∨ is_Some (dict_lookup acc asset).
Proof.
  revert acc w t. induction assets as [|asset assets IH]; intros acc w t.
  { intros (-> & _ & ->)%ret_inv. exists []. split; [constructor|].
    split; [done|]. intros asset. rewrite elem_of_nil.
    split; [auto | by intros [[]|]]. }
  cbn [for_each]. intros Hrun.
  apply bind_inv in Hrun as (acc' & w1 & t1 & t2 & Hround & Hrest & ->).
  apply candles_round in Hround as (symbol & c & Hsym & -> & ->).
  destruct (IH _ _ _ Hrest) as (symbols & Hsyms & Hreqs & Hkeys).
  exists (symbol :: symbols). split; [by constructor|]. split.
  - unfold requests in *. rewrite omap_app, Hreqs. done.
  - intros a. rewrite Hkeys, dict_lookup_set, elem_of_cons.
    destruct (decide (asset = a)) as [->|Hne]; [split; eauto|].
    split; [intros [|]; auto|]. intros [[|]|]; auto. congruence.
Qed.

(** When [get_candles] returns for a list of assets, it has opened one URL
    per asset, in the order of the assets, each for the ticks of the
    asset's market at the interval of the data frequency; and it returns
    candles for every asset it was given and for no other. *)
Theorem get_candles_requests data_frequency frequency
    (assets : list TradingPair) bar_count start_date w ohlc_map :
  tick_interval data_frequency = Ok frequency →
  outcome (get_candles data_frequency (Assets assets) bar_count start_date) w
  = Ok (ForAssets ohlc_map) →
  ∃ symbols,
    Forall2 (λ asset symbol, get_symbol asset = Ok symbol) assets symbols
    ∧ requests (events (get_candles data_frequency (Assets assets) bar_count
                                    start_date) w)
      = (λ symbol, Urlopen (ticks_url symbol frequency)) <$> symbols
    ∧ ∀ asset, asset ∈ assets ↔ is_Some (dict_lookup ohlc_map asset).
Proof.
  intros Hfreq. unfold outcome, events.
  destruct (get_candles _ _ _ _ w) as [[r w'] t] eqn:Hrun.
  cbn. intros ->. unfold get_candles in Hrun.
  apply bind_inv in Hrun as ([] & ? & ? & ? & Hlog & Hrun & ->).
  apply log_inv in Hlog as (-> & ->).
  apply bind_inv in Hrun as (frequency' & ? & ? & ? & Htick & Hrun & ->).
  apply lift_inv in Htick as (Htick & -> & ->).
  rewrite Hfreq in Htick. injection Htick as <-.
  apply bind_inv in Hrun as (ohlc_map' & w1 & t1 & ? & Hloop & Hrun & ->).
  apply ret_inv in Hrun as ([= ->] & _ & ->).
  destruct (candles_loop _ _ _ _ _ _ _ _ Hloop)
    as (symbols & Hsyms & Hreqs & Hkeys).
  exists symbols. split; [done|]. split.
  - unfold requests in *. rewrite !omap_app, Hreqs. cbn.
    by rewrite app_nil_r.
  - intros asset. rewrite Hkeys. cbn. split; [auto|]. intros [|[]]; [done|].
    discriminate.
Qed.

End Gateway.

(** ** Properties of the bundle utilities *)

Section Bundles.
Context {num : Type}.
Local Abbreviation result := (result num).
Local Abbreviation exn := (exn num).
Local Abbreviation safe_extract := (@safe_extract num).
Local Abbreviation get_adj_dates := (@get_adj_dates num).
Local Abbreviation get_month_start_end := (@get_month_start_end num).
Local Abbreviation no_data := (@no_data num).
Local Abbreviation traversal := (@traversal num).

(** *** The archive fetcher *)

Lemma safe_extract_check fs (tar : list TarInfo) path :
  for_each tar tt (λ _ member,
    let member_path := path_join path (member_name member) in
    if negb (is_within_directory (cwd fs) path member_path)
    then Raise traversal
    else mret tt)
  = if forallb (λ member,
         is_within_directory (cwd fs) path
           (path_join path (member_name member))) tar
    then Ok tt else Raise traversal.
Proof.
  induction tar as [|member tar IH]; [done|]. cbn [for_each forallb].
  destruct (is_within_directory (cwd fs) path
              (path_join path (member_name member))); [apply IH|done].
Qed.


(** *** The date-range resolver *)

Lemma foldr_min_base e x l :
  foldr Z.min (Z.min e x) l = Z.min x (foldr Z.min e l).
Proof. induction l as [|y l IH]; cbn; [lia|]. rewrite IH. lia. Qed.

Lemma foldr_max_base e x l :
  foldr Z.max (Z.max e x) l = Z.max x (foldr Z.max e l).
Proof. induction l as [|y l IH]; cbn; [lia|]. rewrite IH. lia. Qed.

Lemma gtb_min e x : (if e >? x then Some x else Some e) = Some (Z.min e x).
Proof. destruct (Z.gtb_spec e x); f_equal; lia. Qed.

Lemma gtb_max e x : (if x >? e then Some x else Some e) = Some (Z.max e x).
Proof. destruct (Z.gtb_spec x e); f_equal; lia. Qed.

(** The loop of [get_adj_dates] computes the minimum and the maximum the
    specification asks for. *)
Lemma adj_dates_loop_from f assets e le :
  fold_left (adj_dates_step (frequency_token f)) assets (Some e, le)
  = (Some (foldr Z.min e (start_date <$> assets)),
     match le with
     | Some m => Some (foldr Z.max m (omap (availability_end f) assets))
     | None => list_max (omap (availability_end f) assets)
     end).
Proof.
  revert e le. induction assets as [|asset assets IH]; intros e le.
  { by destruct le. }
  cbn [fold_left adj_dates_step]. rewrite gtb_min.
  replace (if String.eqb (frequency_token f) "minute"
           then end_minute asset else end_daily asset)
    with (availability_end f asset) by by destruct f.
  cbn [fmap list_fmap omap list_omap foldr].
  destruct (availability_end f asset) as [ea|], le as [m|];
    rewrite ?gtb_max, IH; cbn [list_max foldr];
    by rewrite ?foldr_min_base, ?foldr_max_base.
Qed.

Lemma adj_dates_loop f assets :
  assets ≠ [] →
  ∃ earliest,
    spec_earliest_trade assets = Some earliest
    ∧ fold_left (adj_dates_step (frequency_token f)) assets (None, None)
      = (Some earliest, spec_last_entry f assets).
Proof.
  destruct assets as [|asset assets]; [done|]. intros _.
  exists (foldr Z.min (start_date asset) (start_date <$> assets)).
  split; [done|].
  cbn [fold_left adj_dates_step].
  replace (if String.eqb (frequency_token f) "minute"
           then end_minute asset else end_daily asset)
    with (availability_end f asset) by by destruct f.
  unfold spec_last_entry. cbn [omap list_omap].
  by destruct (availability_end f asset); rewrite adj_dates_loop_from.
Qed.

Lemma get_adj_dates_eq start end_ assets f earliest :
  spec_earliest_trade assets = Some earliest →
  fold_left (adj_dates_step (frequency_token f)) assets (None, None)
  = (Some earliest, spec_last_entry f assets) →
  get_adj_dates start end_ assets (frequency_token f)
  = match effective_end end_ (spec_last_entry f assets) with
    | None => no_data_available assets (frequency_token f)
    | Some e =>
        if effective_start start earliest >=? e
        then no_data_available assets (frequency_token f)
        else Ok (effective_start start earliest, e)
    end.
Proof.
  intros _ Hloop. unfold get_adj_dates. rewrite Hloop.
  unfold effective_start, effective_end.
  destruct start as [s|], end_ as [e|], (spec_last_entry f assets) as [le|];
    cbn;
    repeat (match goal with
            | |- context [?a >? ?b] => destruct (Z.gtb_spec a b)
            | |- context [?a >=? ?b] => destruct (Z.geb_spec a b)
            | |- context [?a <=? ?b] => destruct (Z.leb_spec a b)
            | H : context [?a >=? ?b] |- _ => destruct (Z.geb_spec a b)
            end; cbn);
    try done; lia.
Qed.

(** C5, as the code has it. For assets that are not empty, [get_adj_dates]
    raises [NoDataAvailableOnExchange] exactly when the effective end is
    absent (no end was asked for and no asset has one for the frequency) or
    the effective start is not before the effective end; otherwise it
    returns the two. *)
Theorem get_adj_dates_window start end_ assets f :
  assets ≠ [] →
  ∃ earliest,
    spec_earliest_trade assets = Some earliest
    ∧ (no_data (get_adj_dates start end_ assets (frequency_token f))
       ↔ effective_end end_ (spec_last_entry f assets) = None
         ∨ ∃ e, effective_end end_ (spec_last_entry f assets) = Some e
                ∧ e ≤ effective_start start earliest)
    ∧ (∀ e, effective_end end_ (spec_last_entry f assets) = Some e →
            effective_start start earliest < e →
            get_adj_dates start end_ assets (frequency_token f)
            = Ok (effective_start start earliest, e)).
Proof.
  intros Hne. destruct (adj_dates_loop f assets Hne) as (earliest & Hmin & Hloop).
  exists earliest. split; [done|].
  rewrite (get_adj_dates_eq _ _ _ _ _ Hmin Hloop).
  assert (Hlast : ∃ asset, last assets = Some asset).
  { destruct assets as [|a l] using rev_ind; [done|].
    exists a. apply last_snoc. }
  destruct Hlast as [asset Hlast]. unfold no_data_available. rewrite Hlast.
  destruct (effective_end _ _) as [e|].
  - destruct (Z.geb_spec (effective_start start earliest) e); split.
    + split; [intros _; right; eauto|]. intros _. by eexists _, _.
    + intros e' [= <-]. lia.
    + split; [by intros (? & ? & ?)|]. intros [|(e' & [= <-] & ?)]; [done|lia].
    + by intros e' [= <-].
  - split; [|done]. split; [auto|]. intros _. by eexists _, _.
Qed.

(** *** Month bounds *)

Ltac month_cases m :=
  let Hm := fresh in
  assert (Hm : m = 1 ∨ m = 2 ∨ m = 3 ∨ m = 4 ∨ m = 5 ∨ m = 6 ∨ m = 7
               ∨ m = 8 ∨ m = 9 ∨ m = 10 ∨ m = 11 ∨ m = 12) by lia;
  destruct Hm as [->|[->|[->|[->|[->|[->|[->|[->|[->|[->|[->| ->]]]]]]]]]]];
  repeat match goal with
         | |- context [Z.to_nat ?k] =>
             let n := eval vm_compute in (Z.to_nat k) in
             change (Z.to_nat k) with n
         end.

Lemma days_in_month_range y m :
  1 ≤ m ≤ 12 → 28 ≤ days_in_month y m ≤ 31.
Proof.
  intros Hm. unfold days_in_month, mdays.
  month_cases m; cbn; try lia. destruct (isleap y); cbn; lia.
Qed.

Lemma monthrange_days y m :
  1 ≤ m ≤ 12 →
  monthrange (num := num) y m = Ok (weekday y m 1, days_in_month y m).
Proof.
  intros Hm. unfold monthrange, days_in_month, mdays.
  month_cases m; cbn; try done. by destruct (isleap y).
Qed.

Lemma days_before_next_year y :
  days_before_year (y + 1)
  = days_before_year y + 365 + (if isleap y then 1 else 0).
Proof.
  unfold days_before_year, isleap.
  replace (y + 1 - 1) with y by lia.
  destruct (Z.eqb_spec (y mod 4) 0), (Z.eqb_spec (y mod 100) 0),
    (Z.eqb_spec (y mod 400) 0); cbn; Z.div_mod_to_equations; lia.
Qed.

(** The day [monthrange] gives is the last of the month: the day after it
    is the first of the next month. *)
Lemma last_day_of_month y m :
  1 ≤ m ≤ 12 →
  ymd2ord y m (days_in_month y m) + 1
  = ymd2ord (next_month y m).1 (next_month y m).2 1.
Proof.
  intros Hm. unfold ymd2ord, next_month, days_in_month, days_before_month,
    mdays, DAYS_BEFORE_MONTH.
  month_cases m;
    cbn [Z.eqb Pos.eqb fst snd andb Z.gtb Z.compare Pos.compare
         Pos.compare_cont nth];
    rewrite ?days_before_next_year; destruct (isleap y);
    repeat match goal with
           | |- context [?a + 1 >? 2] =>
               let b := eval vm_compute in (a + 1 >? 2) in
               change (a + 1 >? 2) with b
           end; cbn; lia.
Qed.

(** C9. [get_month_start_end] returns the first instant of the month of
    its argument, day 1 at 00:00:00 UTC, and the month's last day at
    23:59:00 UTC: sixty seconds short of the next month. *)
Theorem get_month_start_end_bounds (dt : datetime) :
  1 ≤ year dt ≤ 9999 →
  1 ≤ month dt ≤ 12 →
  get_month_start_end dt
  = Ok (to_datetime_utc (midnight (year dt) (month dt) 1),
        to_datetime_utc
          {| year := year dt; month := month dt;
             day := days_in_month (year dt) (month dt);
             hour := 23; minute := 59; second := 0; microsecond := 0 |})
  ∧ to_datetime_utc
      {| year := year dt; month := month dt;
         day := days_in_month (year dt) (month dt);
         hour := 23; minute := 59; second := 0; microsecond := 0 |}
    + 60 * 1000000000
    = to_datetime_utc (midnight (next_month (year dt) (month dt)).1
                                (next_month (year dt) (month dt)).2 1).
Proof.
  intros Hy Hm. pose proof (days_in_month_range (year dt) _ Hm) as Hd. split.
  - unfold get_month_start_end, datetime_new, midnight.
    rewrite (monthrange_days _ _ Hm). cbn.
    repeat (match goal with
            | |- context [?a <=? ?b] => destruct (Z.leb_spec a b)
            end; cbn; try lia).
    done.
  - unfold to_datetime_utc, midnight. cbn [year month day hour minute second
      microsecond].
    rewrite <- (last_day_of_month _ _ Hm). lia.
Qed.

End Bundles.

(** ** More properties of the bundle utilities *)

Section MoreBundles.
Context {num : Type}.
Local Abbreviation result := (result num).
Local Abbreviation exn := (exn num).
Local Abbreviation get_adj_dates := (@get_adj_dates num).
Local Abbreviation get_month_start_end := (@get_month_start_end num).
Local Abbreviation get_year_start_end := (@get_year_start_end num).
Local Abbreviation find_most_recent_time := (@find_most_recent_time num).

(** *** What the check of the archive fetcher tests *)

Lemma common_chars_comm a b : common_chars a b = common_chars b a.
Proof.
  revert b. induction a as [|c a IH]; intros [|d b]; cbn; try done.
  rewrite (Ascii.eqb_sym c d). destruct (Ascii.eqb_spec d c) as [->|]; [|done].
  by rewrite IH.
Qed.

Lemma common_chars_prefix a b : String.prefix (common_chars a b) b = true.
Proof.
  revert b. induction a as [|c a IH]; intros [|d b]; cbn; try done.
  destruct (Ascii.eqb_spec c d) as [->|]; [|done]. cbn.
  destruct (ascii_dec d d); [apply IH|done].
Qed.

Lemma common_chars_of_prefix a b :
  String.prefix a b = true → common_chars a b = a.
Proof.
  revert b. induction a as [|c a IH]; intros [|d b]; cbn; try done.
  destruct (ascii_dec c d) as [->|]; [|done]. intros Hpre.
  by rewrite Ascii.eqb_refl, IH.
Qed.

Lemma commonprefix_pair a b : commonprefix [a; b] = common_chars a b.
Proof.
  unfold commonprefix, str_min, str_max. cbn.
  destruct (String.leb a b); [done|apply common_chars_comm].
Qed.

Lemma commonprefix_is_prefix a b :
  String.eqb (commonprefix [a; b]) a = String.prefix a b.
Proof.
  rewrite commonprefix_pair. destruct (String.prefix a b) eqn:Hpre.
  - rewrite (common_chars_of_prefix _ _ Hpre). apply String.eqb_refl.
  - apply String.eqb_neq. intros Heq.
    pose proof (common_chars_prefix a b) as Hp. rewrite Heq in Hp. congruence.
Qed.

(** [is_within_directory] compares strings, not paths: it holds exactly
    when the absolute directory, as a string, starts the absolute target. *)
Theorem is_within_directory_prefix cwd directory target :
  is_within_directory cwd directory target
  = String.prefix (abspath cwd directory) (abspath cwd target).
Proof. unfold is_within_directory. apply commonprefix_is_prefix. Qed.

(** *** What fetching a bundle writes *)

Lemma safe_extract_inv fs tar path fs' :
  safe_extract (num := num) fs tar path = Ok fs' →
  fs' = extractall fs tar path
  ∧ ∀ member, member ∈ tar →
      is_within_directory (cwd fs) path
        (path_join path (member_name member)) = true.
Proof.
  unfold safe_extract. fold (@traversal num). rewrite safe_extract_check.
  destruct (forallb _ _) eqn:Hall; [|done]. intros [= <-]. split; [done|].
  intros member Hin%list_elem_of_In. rewrite forallb_forall in Hall.
  by apply Hall.
Qed.


(** *** The date-range resolver without assets, and the window it returns *)

(** Without assets [get_adj_dates] never returns and never reports that no
    data is available: a comparison with [None] raises [TypeError], or,
    when neither bound is asked for, the error message reads the loop
    variable that was never bound. *)
Theorem get_adj_dates_no_assets start end_ data_frequency :
  get_adj_dates start end_ [] data_frequency
  = Raise match start, end_ with
          | None, None => UnboundLocalError "asset"
          | _, _ => TypeError
          end.
Proof. by destruct start, end_. Qed.

Lemma foldr_min_elem x l : foldr Z.min x l ∈ x :: l.
Proof.
  induction l as [|y l IH]; cbn; [left|].
  destruct (Z.min_spec y (foldr Z.min x l)) as [[_ ->]|[_ ->]].
  - right. left.
  - apply elem_of_cons in IH as [->|IH]; [left|by do 2 right].
Qed.

(** A window [get_adj_dates] returns is not empty, lies within the window
    asked for, starts when some asset has started trading, and ends no
    later than the last data of the assets, when there is any. *)
Theorem get_adj_dates_within start end_ assets f s e :
  get_adj_dates start end_ assets (frequency_token f) = Ok (s, e) →
  s < e
  ∧ (∀ s0, start = Some s0 → s0 ≤ s)
  ∧ (∀ e0, end_ = Some e0 → e ≤ e0)
  ∧ (∃ asset, asset ∈ assets ∧ start_date asset ≤ s)
  ∧ (∀ last_entry, spec_last_entry f assets = Some last_entry →
       e ≤ last_entry).
Proof.
  intros Hrun. destruct (decide (assets = [])) as [->|Hne].
  { by destruct start, end_. }
  destruct (adj_dates_loop f assets Hne) as (earliest & Hmin & Hloop).
  rewrite (get_adj_dates_eq _ _ _ _ _ Hmin Hloop) in Hrun.
  assert (Hasset : ∃ asset, asset ∈ assets ∧ start_date asset = earliest).
  { destruct assets as [|asset assets]; [done|]. injection Hmin as <-.
    pose proof (foldr_min_elem (start_date asset) (start_date <$> assets))
      as Hin.
    change (start_date asset :: (start_date <$> assets))
      with (start_date <$> asset :: assets) in Hin.
    apply list_elem_of_fmap in Hin as (a & Ha & Hin). eauto. }
  destruct Hasset as (asset & Hin & Hstart).
  unfold no_data_available in Hrun.
  destruct (effective_end end_ _) as [e'|] eqn:Hend;
    [|by destruct (last assets)].
  destruct (Z.geb_spec (effective_start start earliest) e');
    [by destruct (last assets)|].
  injection Hrun as <- <-.
  unfold effective_start, effective_end in *.
  split; [done|]. split; [|split; [|split]].
  - intros s0 ->. destruct (Z.geb_spec s0 earliest); lia.
  - intros e0 ->. destruct (spec_last_entry f assets) as [le|].
    + destruct (Z.leb_spec e0 le); injection Hend as <-; lia.
    + injection Hend as <-. lia.
  - exists asset. split; [done|]. rewrite Hstart.
    destruct start as [s0|]; [|lia]. destruct (Z.geb_spec s0 earliest); lia.
  - intros le Hle. rewrite Hle in Hend. destruct end_ as [e0|].
    + destruct (Z.leb_spec e0 le); injection Hend as <-; lia.
    + injection Hend as <-. lia.
Qed.

(** *** Year bounds *)

Lemma get_month_start_end_eq (dt : datetime) :
  1 ≤ year dt ≤ 9999 →
  1 ≤ month dt ≤ 12 →
  get_month_start_end dt
  = Ok (to_datetime_utc (midnight (year dt) (month dt) 1),
        to_datetime_utc
          {| year := year dt; month := month dt;
             day := days_in_month (year dt) (month dt);
             hour := 23; minute := 59; second := 0; microsecond := 0 |}).
Proof.
  intros Hy Hm. pose proof (days_in_month_range (year dt) _ Hm) as Hd.
  unfold get_month_start_end, datetime_new, midnight.
  rewrite (monthrange_days _ _ Hm). cbn.
  repeat (match goal with
          | |- context [?a <=? ?b] => destruct (Z.leb_spec a b)
          end; cbn; try lia).
  done.
Qed.

Lemma get_year_start_end_eq (dt : datetime) :
  1 ≤ year dt ≤ 9999 →
  get_year_start_end dt
  = Ok (to_datetime_utc (midnight (year dt) 1 1),
        to_datetime_utc (midnight (year dt) 12 31)).
Proof.
  intros Hy. unfold get_year_start_end, datetime_new, midnight.
  change (days_in_month (year dt) 1) with 31.
  change (days_in_month (year dt) 12) with 31. cbn.
  repeat (match goal with
          | |- context [?a <=? ?b] => destruct (Z.leb_spec a b)
          end; cbn; try lia).
  done.
Qed.

(** [get_year_start_end] returns the first instant of the year and the
    first instant of its last day: the end is a whole day short of the
    next year. The start is the one [get_month_start_end] gives for
    January, and the end comes 23 hours and 59 minutes before the one it
    gives for December. *)
Theorem get_year_start_end_bounds (dt : datetime) :
  1 ≤ year dt ≤ 9999 →
  ∃ year_start year_end,
    get_year_start_end dt = Ok (year_start, year_end)
    ∧ year_start = to_datetime_utc (midnight (year dt) 1 1)
    ∧ year_end = to_datetime_utc (midnight (year dt) 12 31)
    ∧ year_end + 86400 * 1000000000
      = to_datetime_utc (midnight (year dt + 1) 1 1)
    ∧ (∀ january, year january = year dt → month january = 1 →
         ∃ month_end,
           get_month_start_end january = Ok (year_start, month_end))
    ∧ (∀ december, year december = year dt → month december = 12 →
         ∃ month_start,
           get_month_start_end december
           = Ok (month_start, year_end + 86340 * 1000000000)).
Proof.
  intros Hy. eexists _, _. split; [by apply get_year_start_end_eq|].
  split; [done|]. split; [done|]. split; [|split].
  - pose proof (last_day_of_month (year dt) 12 ltac:(lia)) as Hlast.
    change (days_in_month (year dt) 12) with 31 in Hlast.
    change (next_month (year dt) 12) with (year dt + 1, 1) in Hlast.
    cbn [fst snd] in Hlast.
    unfold to_datetime_utc, midnight.
    cbn [year month day hour minute second microsecond]. lia.
  - intros january Hyear Hmonth. eexists.
    rewrite get_month_start_end_eq by lia. by rewrite Hyear, Hmonth.
  - intros december Hyear Hmonth. eexists.
    rewrite get_month_start_end_eq by lia. rewrite Hyear, Hmonth.
    change (days_in_month (year dt) 12) with 31. f_equal. f_equal.
    unfold to_datetime_utc, midnight.
    cbn [year month day hour minute second microsecond]. lia.
Qed.

(** *** The start of a window of bars *)


(** *** Whether a range is in the bundle *)

(** [range_in_bundle] answers yes exactly when there is a reader and the
    close it reads at each end of the range is a number: it looks at
    nothing between the two ends, and whatever the reader or [isnan]
    raises counts as no. *)
Theorem range_in_bundle_ends (np_isnan : pyval num → result bool) asset
    start_dt end_dt reader :
  range_in_bundle np_isnan asset start_dt end_dt reader = true
  ↔ ∃ get_value start_close end_close,
      reader = Some get_value
      ∧ get_value (sid asset) start_dt "close" = Ok start_close
      ∧ np_isnan start_close = Ok false
      ∧ get_value (sid asset) end_dt "close" = Ok end_close
      ∧ np_isnan end_close = Ok false.
Proof.
  unfold range_in_bundle. split.
  - destruct reader as [get_value|]; [|done].
    destruct (get_value _ start_dt _) as [start_close|] eqn:Hstart; [|done].
    cbn. destruct (np_isnan start_close) as [[]|] eqn:Hnan1; try done.
    cbn. destruct (get_value _ end_dt _) as [end_close|] eqn:Hend; [|done].
    cbn. destruct (np_isnan end_close) as [[]|] eqn:Hnan2; try done.
    intros _. by exists get_value, start_close, end_close.
  - intros (get_value & start_close & end_close & -> & Hstart & Hnan1
            & Hend & Hnan2).
    rewrite Hstart. cbn. rewrite Hnan1. cbn. rewrite Hend. cbn.
    by rewrite Hnan2.
Qed.

(** *** The most recent time folder *)

Lemma most_recent_held (from_bundle_ingest_dirname : string → result Timestamp)
    folders held st :
  for_each folders (Some held)
    (λ most_recent_bundle folder,
       date ← from_bundle_ingest_dirname folder;
       newer ← match most_recent_bundle with
               | None => Ok true
               | Some (held, held_date) =>
                   key ← keys_getitem (num := num) [held] 0;
                   mret (date >? held_date)
               end;
       if newer : bool then mret (Some (folder, date))
       else mret most_recent_bundle)
  = Ok st →
  is_Some st.
Proof.
  destruct folders as [|folder folders]; cbn.
  - intros [= <-]. eauto.
  - destruct (from_bundle_ingest_dirname folder); [|done]. by destruct held.
Qed.


End MoreBundles.

(** ** The properties at work on the concrete environment *)

Section Examples.
#[local] Existing Instances Z_NumOps demo_env.

Lemma five_candles_read : candles_read five_candles five_bars.
Proof. repeat constructor. Qed.

Lemma five_bars_newest_first : newest_first five_bars.
Proof. unfold newest_first, five_bars. repeat constructor; cbn; lia. Qed.

Lemma ticks_answered :
  ticks_answer (env := demo_env) (answering ticks) "BTC-ETH" "oneMin"
               five_candles (answering ticks).
Proof. exists ticks, (VStr ""). by repeat split. Qed.

Lemma cancelled_and_closed_record : order_record cancelled_and_closed.
Proof. unfold order_record. do 13 eexists. repeat split; reflexivity. Qed.

(** C1 at work: the record that is both cancel-initiated and closed comes
    out CANCELLED. *)
Lemma order_status_derivation_witness :
  order_record cancelled_and_closed
  ∧ ∃ order price,
      _create_order (env := demo_env) cancelled_and_closed offline
      = (Ok (order, price), offline,
         [Log INFO "creating catalyst order from Bittrex {}"])
      ∧ o_status order = CANCELLED.
Proof.
  split; [exact cancelled_and_closed_record|].
  destruct (order_status_derivation (env := demo_env) cancelled_and_closed
              offline cancelled_and_closed_record)
    as (order & price & ci & Hrun & Hci & _ & Hcancelled).
  exists order, price. split; [exact Hrun|].
  injection Hci as <-. by apply Hcancelled.
Defined.

(** C8 at work, on the example of the specification: five candles newest
    first and a bar count of 3 give the three oldest, oldest first. *)
Lemma get_candles_bars_witness :
  outcome (env := demo_env)
          (get_candles "1m" (OneAsset eth_btc) (Some 3) None)
          (answering ticks)
  = Ok (ForAsset (Bars [bar 1499040060000000000 101;
                        bar 1499040120000000000 102;
                        bar 1499040180000000000 103]))
  ∧ oldest_first [bar 1499040060000000000 101;
                  bar 1499040120000000000 102;
                  bar 1499040180000000000 103].
Proof.
  destruct (get_candles_bars (env := demo_env) "1m" "oneMin" eth_btc "BTC-ETH" five_candles
              five_bars 3 None (answering ticks) (answering ticks)
              eq_refl eq_refl ticks_answered five_candles_read
              ltac:(lia))
    as (Hout & _ & Hsorted).
  split; [exact Hout|]. exact (proj1 (Hsorted five_bars_newest_first)).
Defined.

(** C2 fails on the code: of five candles that came newest first,
    [get_candles] without a bar count does not return the most recent. *)
Lemma get_candles_most_recent_counterexample :
  five_candles ≠ []
  ∧ candles_read (env := demo_env) five_candles five_bars
  ∧ newest_first five_bars
  ∧ ¬ ∃ recent,
        outcome (env := demo_env)
                (get_candles "1m" (OneAsset eth_btc) None None)
                (answering ticks)
        = Ok (ForAsset (OneCandle recent))
        ∧ most_recent recent five_bars.
Proof.
  split; [discriminate|].
  split; [exact five_candles_read|]. split; [exact five_bars_newest_first|].
  intros (recent & Hout & _ & Hmost).
  vm_compute in Hout. injection Hout as <-.
  specialize (Hmost (bar 1499040300000000000 105)). cbn in Hmost.
  assert (1499040300000000000 ≤ 1499040060000000000); [|lia].
  apply Hmost. unfold five_bars. apply list_elem_of_here.
Qed.

(** C2, as the code has it, at work: it returns the oldest of them. *)
Lemma get_candles_one_witness :
  outcome (env := demo_env)
          (get_candles "1m" (OneAsset eth_btc) None None) (answering ticks)
  = Ok (ForAsset (OneCandle (bar 1499040060000000000 101)))
  ∧ oldest (bar 1499040060000000000 101) five_bars.
Proof.
  destruct (get_candles_one (env := demo_env) "1m" "oneMin" eth_btc "BTC-ETH" five_candles
              five_bars None (answering ticks) (answering ticks)
              eq_refl eq_refl ticks_answered five_candles_read
              ltac:(discriminate))
    as (oldest_bar & Hlast & Hout & Holdest).
  injection Hlast as <-.
  split; [exact Hout|]. exact (Holdest five_bars_newest_first).
Defined.

(** C7 at work: a buy limit order that the remote declines for lack of
    funds, one it rejects for another reason, and a market order. *)
Lemma create_order_declines_witness :
  outcome (env := demo_env)
          (create_order eth_btc 100 true (LimitOrder 5))
          (answering (VStr "INSUFFICIENT_FUNDS"))
  = Ok None
  ∧ outcome (env := demo_env)
            (create_order eth_btc 100 true (LimitOrder 5))
            (answering (VStr "MARKET_OFFLINE"))
    = Raise (CreateOrderError "bittrex" (VStr "MARKET_OFFLINE"))
  ∧ outcome (env := demo_env)
            (create_order eth_btc 100 true MarketOrder) offline
    = Raise (InvalidOrderStyle "bittrex" "MarketOrder")
  ∧ requests (events (env := demo_env)
                     (create_order eth_btc 100 true MarketOrder) offline)
    = [].
Proof.
  split; [|split].
  - destruct (proj1 (create_order_declines (env := demo_env) eth_btc 100 true
                       (LimitOrder 5) (answering (VStr "INSUFFICIENT_FUNDS")))
                "BTC-ETH" (VStr "INSUFFICIENT_FUNDS")
                (answering (VStr "INSUFFICIENT_FUNDS"))
                eq_refl eq_refl eq_refl) as [Hdeclined _].
    apply Hdeclined. by left.
  - destruct (proj1 (create_order_declines (env := demo_env) eth_btc 100 true
                       (LimitOrder 5) (answering (VStr "MARKET_OFFLINE")))
                "BTC-ETH" (VStr "MARKET_OFFLINE")
                (answering (VStr "MARKET_OFFLINE"))
                eq_refl eq_refl eq_refl) as [_ Hrejected].
    apply Hrejected; [reflexivity|discriminate|discriminate].
  - destruct (proj2 (create_order_declines (env := demo_env) eth_btc 100 true
                       MarketOrder offline) eq_refl) as [Hquiet Hraise].
    split; [exact (Hraise "BTC-ETH" eq_refl) | exact Hquiet].
Defined.

(** C9 at work, on the example of the specification: the month of
    2021-02-15. *)
Lemma get_month_start_end_witness :
  get_month_start_end (num := Z)
    {| year := 2021; month := 2; day := 15;
       hour := 12; minute := 30; second := 0; microsecond := 0 |}
  = Ok (1612137600000000000, 1614556740000000000).
Proof.
  exact (proj1 (get_month_start_end_bounds (num := Z)
                  {| year := 2021; month := 2; day := 15;
                     hour := 12; minute := 30; second := 0;
                     microsecond := 0 |}
                  ltac:(cbn; lia) ltac:(cbn; lia))).
Defined.

(** C5 fails on the code: when no asset has an end for the frequency but
    the caller asks for one, [get_adj_dates] does not raise. *)
Lemma get_adj_dates_counterexample :
  spec_last_entry Daily [asset_b] = None
  ∧ get_adj_dates (num := Z) None (Some 1590969600000000000) [asset_b]
                  (frequency_token Daily)
    = Ok (1580515200000000000, 1590969600000000000)
  ∧ ¬ (no_data (get_adj_dates (num := Z) None (Some 1590969600000000000)
                              [asset_b] (frequency_token Daily))
       ↔ spec_last_entry Daily [asset_b] = None
         ∨ ∃ e, effective_end (Some 1590969600000000000)
                              (spec_last_entry Daily [asset_b]) = Some e
                ∧ e ≤ effective_start None 1580515200000000000).
Proof.
  split; [done|]. split; [done|].
  intros [_ Hraises]. by destruct Hraises as (asset & freq & ?); [left|].
Qed.

(** C5, as the code has it, at work on the example of the specification:
    the window of the two assets is from 2020-01-01 to 2020-06-01. *)
Lemma get_adj_dates_window_witness :
  [asset_a; asset_b] ≠ []
  ∧ get_adj_dates (num := Z) None None [asset_a; asset_b]
                  (frequency_token Daily)
    = Ok (1577836800000000000, 1590969600000000000).
Proof.
  split; [discriminate|].
  destruct (get_adj_dates_window (num := Z) None None [asset_a; asset_b]
              Daily ltac:(discriminate))
    as (earliest & Hmin & _ & Hwindow).
  injection Hmin as <-.
  exact (Hwindow 1590969600000000000 eq_refl eq_refl).
Defined.

(** C3 fails on the code: [get_candles] and [get_orderbook] send their
    request with no acquisition before it. *)
Lemma requests_without_acquisition :
  events (env := demo_env)
         (get_candles "1m" (OneAsset eth_btc) None None) (answering ticks)
  = [Log INFO "retrieving candles";
     Remote (Urlopen ("https://bittrex.com/Api/v2.0/pub/market/GetTicks"
                      +:+ "?marketName=BTC-ETH&tickInterval=oneMin"
                      +:+ "&_=1499127220008"))]
  ∧ rate_limited (events (env := demo_env)
                         (get_candles "1m" (OneAsset eth_btc) None None)
                         (answering ticks)) = false
  ∧ events (env := demo_env)
           (get_orderbook eth_btc "all" 50) (answering order_book)
    = [Remote (Getorderbook "BTC-ETH" "both" 100)]
  ∧ rate_limited (events (env := demo_env)
                         (get_orderbook eth_btc "all" 50)
                         (answering order_book)) = false.
Proof. by vm_compute. Qed.

(** C6 fails on the code: the elements [get_open_orders] returns are the
    pairs [_create_order] returns, an order with its executed price. *)
Lemma get_open_orders_pairs :
  outcome (env := demo_env) (get_open_orders eth_btc)
          (answering (VList [cancelled_and_closed]))
  = Ok [(cancelled_order, VNum 5)].
Proof. by vm_compute. Qed.

(** C4 fails on the code: an entry that lands in a sibling folder whose
    name starts like the destination passes the check and is written
    outside the destination. An entry that climbs out is refused, and then
    nothing is written, not even the entries before it. *)
Lemma sibling_entry_extracted :
  is_within_directory "/home/trader" bundle_path
    (path_join bundle_path
       "../bittrex-daily-eth_btc-2017-10-evil/payload") = true
  ∧ ¬ descendant "/home/trader" bundle_path
        (path_join bundle_path
           "../bittrex-daily-eth_btc-2017-10-evil/payload")
  ∧ safe_extract (num := Z) empty_disk sibling_archive bundle_path
    = Ok (extractall empty_disk sibling_archive bundle_path)
  ∧ "/data/bittrex/bittrex-daily-eth_btc-2017-10-evil/payload"
    ∈ files (extractall empty_disk sibling_archive bundle_path)
  ∧ get_bcolz_chunk (bundles := serving sibling_archive) empty_disk
      "bittrex" "eth_btc" "daily" "2017-10"
    = Ok (bundle_path, extractall empty_disk sibling_archive bundle_path).
Proof.
  split; [by vm_compute|]. split; [|split; [|split]].
  - intros [rest Hrest]. vm_compute in Hrest. discriminate.
  - by vm_compute.
  - unfold extractall. cbn. set_solver.
  - by vm_compute.
Qed.

Lemma climbing_entry_refused :
  safe_extract (num := Z) empty_disk climbing_archive bundle_path
  = Raise traversal
  ∧ get_bcolz_chunk (bundles := serving climbing_archive) empty_disk
      "bittrex" "eth_btc" "daily" "2017-10"
    = Raise traversal.
Proof. by vm_compute. Qed.

(** The further properties at work. *)


Lemma get_adj_dates_within_witness :
  get_adj_dates (num := Z) None None [asset_a; asset_b]
                (frequency_token Daily)
  = Ok (1577836800000000000, 1590969600000000000)
  ∧ 1577836800000000000 < 1590969600000000000
  ∧ ∃ asset, asset ∈ [asset_a; asset_b]
             ∧ start_date asset ≤ 1577836800000000000.
Proof.
  split; [reflexivity|].
  destruct (get_adj_dates_within (num := Z) None None [asset_a; asset_b]
              Daily 1577836800000000000 1590969600000000000 eq_refl)
    as (Hbefore & _ & _ & Hasset & _).
  exact (conj Hbefore Hasset).
Defined.

Lemma get_year_start_end_bounds_witness :
  get_year_start_end (num := Z)
    {| year := 2021; month := 2; day := 15;
       hour := 12; minute := 30; second := 0; microsecond := 0 |}
  = Ok (1609459200000000000, 1640908800000000000).
Proof.
  destruct (get_year_start_end_bounds (num := Z)
              {| year := 2021; month := 2; day := 15;
                 hour := 12; minute := 30; second := 0; microsecond := 0 |}
              ltac:(cbn; lia))
    as (year_start & year_end & Hrun & -> & -> & _).
  exact Hrun.
Defined.

Lemma remote_failure_wrapped_witness :
  outcome (env := demo_env) get_balances offline
  = Raise (ExchangeRequestError (ExternalError "URLError"))
  ∧ outcome (env := demo_env) (tickers [eth_btc]) offline
    = Raise (ExchangeRequestError (ExternalError "URLError")).
Proof.
  destruct (remote_failure_wrapped (env := demo_env) offline
              (ExternalError "URLError") offline)
    as (Hbalances & _ & _ & _ & _ & Htickers & _).
  split; [exact (Hbalances eq_refl)|].
  exact (Htickers eth_btc [] "BTC-ETH" eq_refl eq_refl).
Defined.

Lemma get_order_outcome_witness :
  ∃ order price,
    outcome (env := demo_env) (get_order (VStr "another id"))
            (answering cancelled_and_closed)
    = Ok (order, price)
    ∧ o_id order = VStr "0cb4c4e4-bdc7-4e13-8c13-430e587d2cc1"
    ∧ o_status order = CANCELLED.
Proof.
  destruct (get_order_outcome (env := demo_env) (VStr "another id")
              (answering cancelled_and_closed) cancelled_and_closed
              (answering cancelled_and_closed) eq_refl)
    as (_ & _ & Hfound).
  destruct (Hfound cancelled_and_closed_record)
    as (order & price & ci & Hout & Hci & Hstatus & Hid & _).
  exists order, price. split; [exact Hout|].
  injection Hid as <-. injection Hci as <-. by split.
Defined.

Lemma cancel_order_outcome_witness :
  outcome (env := demo_env) (cancel_order (ById (VStr "an id")))
          (answering not_open)
  = Raise (OrderCancelError (VStr "an id") "bittrex" (VStr "ORDER_NOT_OPEN"))
  ∧ outcome (env := demo_env) (cancel_order (ById (VStr "an id")))
            (answering (VStr "no message"))
    = Raise TypeError.
Proof.
  split.
  - exact (cancel_order_outcome (env := demo_env) (ById (VStr "an id"))
             (answering not_open) not_open (answering not_open) eq_refl).
  - exact (cancel_order_outcome (env := demo_env) (ById (VStr "an id"))
             (answering (VStr "no message")) (VStr "no message")
             (answering (VStr "no message")) eq_refl).
Defined.

Lemma get_orderbook_failures_witness :
  outcome (env := demo_env) (get_orderbook eth_btc "bids" 10)
          (answering order_book)
  = Raise (ValueError "invalid type")
  ∧ outcome (env := demo_env) (get_orderbook eth_btc "all" 10) offline
    = Raise (ExternalError "URLError").
Proof.
  destruct (get_orderbook_failures (env := demo_env) eth_btc "bids" 10
              (answering order_book)) as [Hinvalid _].
  destruct (get_orderbook_failures (env := demo_env) eth_btc "all" 10
              offline) as [_ Hraw].
  split.
  - apply Hinvalid. unfold book_tokens. rewrite !not_elem_of_cons.
    repeat split; try discriminate. apply not_elem_of_nil.
  - exact (Hraw "both" (ExternalError "URLError") offline eq_refl eq_refl).
Defined.

Lemma get_candles_invalid_frequency_witness :
  outcome (env := demo_env) (get_candles "2h" (OneAsset eth_btc) None None)
          (answering ticks)
  = Raise (InvalidHistoryFrequencyError "2h")
  ∧ requests (events (env := demo_env)
                     (get_candles "2h" (OneAsset eth_btc) None None)
                     (answering ticks)) = [].
Proof.
  apply (get_candles_invalid_frequency (env := demo_env) "2h"
           (OneAsset eth_btc) None None (answering ticks)).
  unfold frequency_tokens. rewrite !not_elem_of_cons.
  repeat split; try discriminate. apply not_elem_of_nil.
Defined.

Lemma create_order_places_witness :
  requests (events (env := demo_env)
                   (create_order eth_btc (-100) false (StopLimitOrder 5 4))
                   (answering accepted))
  = [Selllimit "BTC-ETH" (VNum 100) (VNum 5)]
  ∧ outcome (env := demo_env)
            (create_order eth_btc (-100) false (StopLimitOrder 5 4))
            (answering accepted)
    = Ok (Some {| o_dt := demo_now;
                  o_asset := eth_btc;
                  o_amount := VNum (-100);
                  o_stop := VNum 4;
                  o_limit := VNum 5;
                  o_filled := None;
                  o_id := VStr "614c34e4-8d71-11e3-94b5-425861b86ab6";
                  o_commission := None;
                  o_status := OPEN |}).
Proof.
  destruct (create_order_places (env := demo_env) eth_btc (-100) false
              (StopLimitOrder 5 4) "BTC-ETH" (answering accepted)
              eq_refl eq_refl) as [Hsent Hplaced].
  split; [exact Hsent|].
  exact (Hplaced accepted (answering accepted)
           (VStr "614c34e4-8d71-11e3-94b5-425861b86ab6")
           eq_refl eq_refl eq_refl).
Defined.



Lemma tickers_requests_witness :
  ∃ symbols,
    Forall2 (λ asset symbol, get_symbol (Env := demo_env) asset = Ok symbol)
            [eth_btc; asset_a] symbols
    ∧ requests (events (env := demo_env) (tickers [eth_btc; asset_a])
                       (answering quote))
      = Getticker <$> symbols.
Proof.
  destruct (tickers_requests (env := demo_env) [eth_btc; asset_a]
              (answering quote)
              [(eth_btc, {| ticker_timestamp := demo_now;
                            ticker_bid := VNum 4; ticker_ask := VNum 6;
                            ticker_last_price := VNum 5 |});
               (asset_a, {| ticker_timestamp := demo_now;
                            ticker_bid := VNum 4; ticker_ask := VNum 6;
                            ticker_last_price := VNum 5 |})]
              eq_refl)
    as (symbols & Hsymbols & Hsent & _).
  exists symbols. exact (conj Hsymbols Hsent).
Defined.

Lemma get_candles_negative_count_witness :
  outcome (env := demo_env)
          (get_candles "1m" (OneAsset eth_btc) (Some (-2)) None)
          (answering ticks)
  = Ok (ForAsset (Bars [bar 1499040060000000000 101;
                        bar 1499040120000000000 102;
                        bar 1499040180000000000 103])).
Proof.
  exact (get_candles_negative_count (env := demo_env) "1m" "oneMin" eth_btc
           "BTC-ETH" five_candles five_bars (-2) None (answering ticks)
           (answering ticks) eq_refl eq_refl ticks_answered five_candles_read
           ltac:(lia)).
Defined.

Lemma get_candles_without_candles_witness :
  outcome (env := demo_env) (get_candles "1m" (OneAsset eth_btc) None None)
          (answering invalid_market)
  = Raise (ExchangeRequestError_format "Unable to fetch candles {}"
                                       (VStr "INVALID_MARKET")).
Proof.
  exact (proj1 (get_candles_without_candles (env := demo_env) "1m" "oneMin"
                  eth_btc "BTC-ETH" None (answering invalid_market)
                  eq_refl eq_refl)
           invalid_market (VStr "INVALID_MARKET") (answering invalid_market)
           None eq_refl eq_refl eq_refl).
Defined.

Lemma get_orderbook_sides_witness :
  outcome (env := demo_env) (get_orderbook eth_btc "all" 50)
          (answering order_book)
  = Ok (<["asks" := [{| rate := VNum 6; quantity := VNum 7 |}]]>
          (<["bids" := [{| rate := VNum 4; quantity := VNum 12 |}]]> ∅)).
Proof.
  apply (get_orderbook_sides (env := demo_env) eth_btc "all" 50 "both"
           (answering order_book) (answering order_book)
           [VDict [("Quantity", VNum 12); ("Rate", VNum 4)]]
           [VDict [("Quantity", VNum 7); ("Rate", VNum 6)]]);
    [reflexivity | reflexivity | repeat constructor..].
Defined.

Lemma get_candles_requests_witness :
  ∃ symbols,
    Forall2 (λ asset symbol, get_symbol (Env := demo_env) asset = Ok symbol)
            [eth_btc; asset_a] symbols
    ∧ requests (events (env := demo_env)
                       (get_candles "1h" (Assets [eth_btc; asset_a]) None
                                    None)
                       (answering ticks))
      = (λ symbol, Urlopen (ticks_url symbol "hour")) <$> symbols.
Proof.
  destruct (get_candles_requests (env := demo_env) "1h" "hour"
              [eth_btc; asset_a] None None (answering ticks)
              [(eth_btc, OneCandle (bar 1499040060000000000 101));
               (asset_a, OneCandle (bar 1499040060000000000 101))]
              eq_refl eq_refl)
    as (symbols & Hsymbols & Hsent & _).
  exists symbols. exact (conj Hsymbols Hsent).
Defined.


End Examples.
